(** * randomizer5.py: the poly.cfg to LAMMPS conversion, embedded and verified

    The script parses the polycrystal configuration written by Atomsk,
    rescales fractional coordinates, stamps every atom with one of five
    species along a random permutation, and writes a LAMMPS data file.

    The embedding follows the script from the line that reads [poly.cfg]
    (the "PYTHON PART"): the lines of the file are the input, the state of
    the random generator is threaded explicitly, and the files the script
    writes are a finite map from names to contents.  The three Atomsk
    invocations before it are calls of a shell that is a parameter of the
    model.  The progress messages on the console are not modelled.

    Python floats are IEEE 754 binary64 numbers: they are the kernel's
    primitive floats here, with the same rounding.  Characters are code
    points below 256. *)

From Stdlib Require Import ZArith String Ascii List Floats DecimalString.
From stdpp Require Import base option list strings gmap.

Set Warnings "-inexact-float".
Local Open Scope string_scope.
Local Open Scope list_scope.

(* ===================================================================== *)
(** ** The Python built-ins the script calls *)
(* ===================================================================== *)

Module Py.

(** [str.isspace] on one character (code points below 256). *)
Definition isspace (c : ascii) : bool :=
  let n := nat_of_ascii c in
  ((9 <=? n) && (n <=? 13) || (28 <=? n) && (n <=? 32)
   || (n =? 133) || (n =? 160))%nat.

Definition is_empty (s : string) : bool :=
  match s with EmptyString => true | String _ _ => false end.

Fixpoint lstrip (s : string) : string :=
  match s with
  | EmptyString => EmptyString
  | String c r => if isspace c then lstrip r else s
  end.

Fixpoint rstrip (s : string) : string :=
  match s with
  | EmptyString => EmptyString
  | String c r =>
      let r' := rstrip r in
      if is_empty r' && isspace c then EmptyString else String c r'
  end.

(** [s.strip()] *)
Definition strip (s : string) : string := rstrip (lstrip s).

(** [s.split()] with no argument: the maximal runs of characters that are
    not whitespace.  [cur] is the run read so far. *)
Fixpoint split_from (cur : string) (s : string) : list string :=
  match s with
  | EmptyString => if is_empty cur then [] else [cur]
  | String c r =>
      if isspace c
      then (if is_empty cur then split_from EmptyString r
            else cur :: split_from EmptyString r)
      else split_from (cur +:+ String c EmptyString) r
  end.

Definition split (s : string) : list string := split_from EmptyString s.

(** [sub in s] on strings: [sub] occurs in [s] at some position. *)
Fixpoint contains (sub s : string) : bool :=
  String.prefix sub s
  || match s with
     | EmptyString => false
     | String _ r => contains sub r
     end.

(** The decimal digits of a natural number. *)
Definition digits (n : N) : string := NilZero.string_of_uint (N.to_uint n).

(** [str(n)] and [f"{n}"] for a natural number. *)
Definition str (n : nat) : string := digits (N.of_nat n).

(** The integer nearest to [m * 2^e], ties to the even one. *)
Definition round_half_even (m e : Z) : Z :=
  (if 0 <=? e then m * 2 ^ e
   else let d := 2 ^ (- e) in
        let q := m / d in
        match 2 * (m mod d) ?= d with
        | Lt => q
        | Gt => q + 1
        | Eq => if Z.even q then q else q + 1
        end)%Z.

(** [round(f)] for a float, an integer: the nearest integer to the exact
    value of [f], ties to even.  Python raises on an infinity or a
    not-a-number; the script only rounds [0.2 * n_atoms], which is finite,
    and those cases give 0 here. *)
Definition round (f : float) : Z :=
  match Prim2SF f with
  | S754_finite s m e =>
      let v := round_half_even (Zpos m) e in if s then (- v)%Z else v
  | _ => 0%Z
  end.

(** The float a Python int becomes in [0.2 * n] (lists are shorter than
    [2^63]). *)
Definition float_of_int (n : nat) : float :=
  PrimFloat.of_uint63 (Uint63.of_Z (Z.of_nat n)).

Definition digit (k : Z) : ascii := ascii_of_nat (48 + Z.to_nat (k mod 10)).

(** The six digits after the decimal point. *)
Definition frac6 (k : Z) : string :=
  String (digit (k / 100000))
    (String (digit (k / 10000))
       (String (digit (k / 1000))
          (String (digit (k / 100))
             (String (digit (k / 10)) (String (digit k) EmptyString))))).

(** [f"{v:.6f}"]: the exact value of [v] rounded to a multiple of [10^-6]
    (ties to even), written with its sign, its integer part and six
    decimals. *)
Definition format_6f (v : float) : string :=
  match Prim2SF v with
  | S754_nan => "nan"
  | S754_infinity s => if s then "-inf" else "inf"
  | S754_zero s => (if s then "-" else "") +:+ "0.000000"
  | S754_finite s m e =>
      let u := round_half_even (Zpos m * 1000000) e in
      (if s then "-" else "") +:+ digits (Z.to_N (u / 1000000))
        +:+ "." +:+ frac6 (u mod 1000000)
  end.

(** [max(l)]: the first greatest element; [None] stands for the ValueError
    on an empty list. *)
Definition max (l : list float) : option float :=
  match l with
  | [] => None
  | v :: r => Some (fold_left (fun m item => if PrimFloat.ltb m item then item else m) r v)
  end.

(** [min(l)] *)
Definition min (l : list float) : option float :=
  match l with
  | [] => None
  | v :: r => Some (fold_left (fun m item => if PrimFloat.ltb item m then item else m) r v)
  end.

(** [l[a:b]] for [0 <= a] and [0 <= b]: the slice is cut at the end of
    the list, and empty when [b <= a]. *)
Definition slice {A} (a b : nat) (l : list A) : list A := take (b - a) (drop a l).

(** [l[a:]] *)
Definition slice_from {A} (a : nat) (l : list A) : list A := drop a l.

End Py.

(** The generator behind [random.shuffle]: a state [G], and the shuffle of
    a list from a state, which returns the shuffled list and the next
    state. *)
Class PyRandom (G : Type) := shuffle : list nat -> G -> list nat * G.

(** What [random.shuffle] promises: the result is a rearrangement of its
    argument. *)
Class PyRandomLaw (G : Type) `{PyRandom G} : Prop :=
  shuffle_perm : forall l g, (shuffle l g).1 ≡ₚ l.

(* ===================================================================== *)
(** ** Data *)
(* ===================================================================== *)

(** The dict the parser builds for an atom, keys ['x'], ['y'], ['z'],
    ['grain'] and ['type']. *)
Record Atom := mkAtom {
  atom_x : float;
  atom_y : float;
  atom_z : float;
  atom_grain : string;
  atom_type : nat
}.

(** How a run ends: [sys.exit(msg)], an exception that nothing catches, or
    the last line of the script. *)
Inductive outcome :=
| SystemExit (msg : string)
| Raised (exn : string)
| Completed.

(** The status the process exits with. *)
Definition exit_status (o : outcome) : Z :=
  match o with
  | Completed => 0
  | SystemExit _ | Raised _ => 1
  end.

Definition input_file : string := "poly.cfg".
Definition output_file : string := "final_lammps.data".
Definition newline : string := String (ascii_of_nat 10) EmptyString.

(* ===================================================================== *)
(** ** The pipeline *)
(* ===================================================================== *)

Section Pipeline.

(** [float(s)] on a string; [None] stands for the ValueError. *)
Variable py_float : string -> option float.

Context {G : Type} `{!PyRandom G}.

(** *** Header and atom lines (lines 71-82) *)

Record split_state := mkSplit {
  found_fe_line : bool;
  header_part : list string;
  atom_part : list string
}.

Definition split_init : split_state := mkSplit false [] [].

(** One turn of the loop over [lines]. *)
Definition split_step (st : split_state) (line : string) : split_state :=
  if negb (found_fe_line st)
  then mkSplit (if Py.contains "Fe" (Py.strip line) then true else found_fe_line st)
               (header_part st ++ [line]) (atom_part st)
  else mkSplit (found_fe_line st) (header_part st) (atom_part st ++ [line]).

Definition split_header (lines : list string) : split_state :=
  fold_left split_step lines split_init.

(** *** Atom lines (lines 88-109) *)

(** The body of the loop for one line: the dict to append, or [None] when
    the line is passed over by a [continue]. *)
Definition parse_line (line : string) : option Atom :=
  let stripped := Py.strip line in
  if Py.is_empty stripped then None
  else
    let parts := Py.split stripped in
    if (length parts <? 4)%nat then None
    else
      x ← parts !! 0%nat ≫= py_float;
      y ← parts !! 1%nat ≫= py_float;
      z ← parts !! 2%nat ≫= py_float;
      grain_id ← parts !! 3%nat;
      Some (mkAtom x y z grain_id 0).

Definition parse_step (atoms : list Atom) (line : string) : list Atom :=
  match parse_line line with
  | Some a => atoms ++ [a]
  | None => atoms
  end.

Definition parse_atoms (atom_part : list string) : list Atom :=
  fold_left parse_step atom_part [].

(** *** Coordinates (lines 117-135) *)

Definition scale_factor : float := 198%float.

Definition axis_range (vs : list float) : option float :=
  hi ← Py.max vs; lo ← Py.min vs; Some (PrimFloat.sub hi lo).

Definition scale_atom (a : Atom) : Atom :=
  mkAtom (PrimFloat.mul (atom_x a) scale_factor)
         (PrimFloat.mul (atom_y a) scale_factor)
         (PrimFloat.mul (atom_z a) scale_factor)
         (atom_grain a) (atom_type a).

(** The test of line 127. *)
Definition is_fractional (x_range y_range z_range : float) : bool :=
  PrimFloat.ltb x_range 2 && PrimFloat.ltb y_range 2 && PrimFloat.ltb z_range 2.

Definition normalizer (atoms : list Atom) : option (list Atom) :=
  x_range ← axis_range (atom_x <$> atoms);
  y_range ← axis_range (atom_y <$> atoms);
  z_range ← axis_range (atom_z <$> atoms);
  Some (if is_fractional x_range y_range z_range
        then scale_atom <$> atoms
        else atoms).

(** *** Species (lines 137-166) *)

(** [int(round(0.2 * n_atoms))] *)
Definition quota (n_atoms : nat) : nat :=
  Z.to_nat (Py.round (PrimFloat.mul 0.2 (Py.float_of_int n_atoms))).

Definition set_type (t : nat) (a : Atom) : Atom :=
  mkAtom (atom_x a) (atom_y a) (atom_z a) (atom_grain a) t.

(** [for idx in indices: atoms[idx]['type'] = t].  An index outside the
    list would raise an IndexError; the indices of the script are a
    rearrangement of [range(n_atoms)]. *)
Definition stamp (t : nat) (indices : list nat) (atoms : list Atom) : list Atom :=
  fold_left (fun acc idx => alter (set_type t) idx acc) indices atoms.

(** The assignment along a given order [fe_indices] of the indices. *)
Definition assign_species (fe_indices : list nat) (atoms : list Atom) : list Atom :=
  let n_atoms := length atoms in
  let n1 := quota n_atoms in
  let n2 := quota n_atoms in
  let n3 := quota n_atoms in
  let n4 := quota n_atoms in
  let i0 := 0%nat in
  let i1 := n1 in
  let i2 := (i1 + n2)%nat in
  let i3 := (i2 + n3)%nat in
  let i4 := (i3 + n4)%nat in
  let V_indices := Py.slice i0 i1 fe_indices in
  let Nb_indices := Py.slice i1 i2 fe_indices in
  let Ta_indices := Py.slice i2 i3 fe_indices in
  let Ti_indices := Py.slice i3 i4 fe_indices in
  let Zr_indices := Py.slice_from i4 fe_indices in
  stamp 5 Zr_indices
    (stamp 4 Ti_indices
       (stamp 3 Ta_indices
          (stamp 2 Nb_indices
             (stamp 1 V_indices atoms)))).

(** The permutation the script draws. *)
Definition fe_indices_of (n_atoms : nat) (g : G) : list nat :=
  (shuffle (seq 0 n_atoms) g).1.

Definition species_assigner (atoms : list Atom) (g : G) : list Atom :=
  assign_species (fe_indices_of (length atoms) g) atoms.

(** *** The data file (lines 170-201) *)

Definition xlo : float := 0%float.
Definition xhi : float := 198%float.
Definition ylo : float := 0%float.
Definition yhi : float := 198%float.
Definition zlo : float := 0%float.
Definition zhi : float := 198%float.

(** [f"{t} {mass_dict[t]}\n"]: the masses are literals, printed as they
    are written in the script. *)
Definition mass_dict (t : nat) : string :=
  match t with
  | 1 => "50.9415"
  | 2 => "92.90638"
  | 3 => "180.94788"
  | 4 => "47.867"
  | _ => "91.224"
  end%nat.

Definition mass_line (t : nat) : string := Py.str t +:+ " " +:+ mass_dict t.

(** [f"{lo:.6f} {hi:.6f} xlo xhi"] and its two siblings. *)
Definition box_line (lo hi : float) (tag : string) : string :=
  Py.format_6f lo +:+ " " +:+ Py.format_6f hi +:+ " " +:+ tag.

(** The line of atom number [i] (counted from 1), without its newline. *)
Definition atom_line (i : nat) (atom : Atom) : string :=
  Py.str i +:+ " " +:+ Py.str (atom_type atom) +:+ " "
    +:+ Py.format_6f (atom_x atom) +:+ " "
    +:+ Py.format_6f (atom_y atom) +:+ " "
    +:+ Py.format_6f (atom_z atom).

(** The loop of lines 200-201: what it appends to the file. *)
Fixpoint write_atoms (i : nat) (atoms : list Atom) : string :=
  match atoms with
  | [] => EmptyString
  | atom :: rest => atom_line i atom +:+ newline +:+ write_atoms (S i) rest
  end.

(** Everything the script writes to the file, in order. *)
Definition writer (atoms : list Atom) : string :=
  let n_atoms := length atoms in
  "LAMMPS data file generated by automated_pipeline.py" +:+ newline +:+ newline
  +:+ Py.str n_atoms +:+ " atoms" +:+ newline
  +:+ "5 atom types" +:+ newline +:+ newline
  +:+ box_line xlo xhi "xlo xhi" +:+ newline
  +:+ box_line ylo yhi "ylo yhi" +:+ newline
  +:+ box_line zlo zhi "zlo zhi" +:+ newline +:+ newline
  +:+ "Masses" +:+ newline +:+ newline
  +:+ mass_line 1 +:+ newline
  +:+ mass_line 2 +:+ newline
  +:+ mass_line 3 +:+ newline
  +:+ mass_line 4 +:+ newline
  +:+ mass_line 5 +:+ newline
  +:+ newline +:+ "Atoms" +:+ newline +:+ newline
  +:+ write_atoms 1 atoms.

(** *** The script from line 71 on *)

(** The atoms handed to the writer. *)
Definition transform (atoms : list Atom) (g : G) : option (list Atom) :=
  atoms1 ← normalizer atoms; Some (species_assigner atoms1 g).

Definition python_part (lines : list string) (g : G) (files : gmap string string)
  : outcome * gmap string string :=
  let st := split_header lines in
  let atoms := parse_atoms (atom_part st) in
  let n_atoms := length atoms in
  if (n_atoms =? 0)%nat
  then (SystemExit "[ERROR] No atoms parsed. Exiting.", files)
  else
    match transform atoms g with
    | None => (Raised "ValueError", files)
    | Some atoms' => (Completed, <[output_file := writer atoms']> files)
    end.

(** *** Reading the script's results *)

(** The line holds the marker: the test of line 79. *)
Definition has_marker (line : string) : bool := Py.contains "Fe" (Py.strip line).

(** The record of one atom line in the words of the specification: split on
    whitespace, at least four fields, the first three numbers, the fourth
    kept as the grain identifier; any other line gives no record. *)
Definition spec_record (line : string) : option Atom :=
  match Py.split line with
  | f0 :: f1 :: f2 :: f3 :: _ =>
      match py_float f0, py_float f1, py_float f2 with
      | Some x, Some y, Some z => Some (mkAtom x y z f3 0)
      | _, _, _ => None
      end
  | _ => None
  end.

(** A line the parser has to pass over: fewer than four fields, or one of
    the first three fields is not a number. *)
Definition malformed (line : string) : Prop :=
  length (Py.split line) < 4
  ∨ ∃ k f, k < 3 ∧ Py.split line !! k = Some f ∧ py_float f = None.

(** The indices that receive species [t]: the slices of lines 151-155. *)
Definition species_indices (t : nat) (fe_indices : list nat) (n_atoms : nat) : list nat :=
  let q := quota n_atoms in
  match t with
  | 1 => Py.slice 0 q fe_indices
  | 2 => Py.slice q (q + q) fe_indices
  | 3 => Py.slice (q + q) (q + q + q) fe_indices
  | 4 => Py.slice (q + q + q) (q + q + q + q) fe_indices
  | 5 => Py.slice_from (q + q + q + q) fe_indices
  | _ => []
  end.

(** The species of the index at position [p] of the permutation, for the
    group size [q]. *)
Definition species_at_position (q p : nat) : nat :=
  (if p <? q then 1
   else if p <? q + q then 2
   else if p <? q + q + q then 3
   else if p <? q + q + q + q then 4
   else 5)%nat.

(** The species of the atom at index [i] (0 when there is none). *)
Definition type_at (atoms : list Atom) (i : nat) : nat :=
  default 0 (atom_type <$> atoms !! i).

(** How many atoms carry species [t]. *)
Definition species_count (t : nat) (atoms : list Atom) : nat :=
  length (filter (λ a, atom_type a = t) atoms).

(** The lines of a written file: the text between newlines.  [cur] is the
    line read so far. *)
Fixpoint file_lines_from (cur : string) (s : string) : list string :=
  match s with
  | EmptyString => if Py.is_empty cur then [] else [cur]
  | String c r =>
      if Ascii.eqb c (ascii_of_nat 10)
      then cur :: file_lines_from EmptyString r
      else file_lines_from (cur +:+ String c EmptyString) r
  end.

Definition file_lines (s : string) : list string := file_lines_from EmptyString s.

Fixpoint has_newline (s : string) : bool :=
  match s with
  | EmptyString => false
  | String c r => Ascii.eqb c (ascii_of_nat 10) || has_newline r
  end.

(** Whitespace only. *)
Fixpoint all_space (s : string) : bool :=
  match s with
  | EmptyString => true
  | String c r => Py.isspace c && all_space r
  end.

(** The line gives a record. *)
Definition well_formed (line : string) : Prop := is_Some (spec_record line).

(** What the writer reads of an atom: its species and its coordinates. *)
Definition written_part (a : Atom) : nat * float * float * float :=
  (atom_type a, atom_x a, atom_y a, atom_z a).

Definition position_of (a : Atom) : float * float * float :=
  (atom_x a, atom_y a, atom_z a).

Definition is_digit (c : ascii) : bool :=
  let n := nat_of_ascii c in ((48 <=? n) && (n <=? 57))%nat.

Fixpoint all_digits (s : string) : bool :=
  match s with
  | EmptyString => true
  | String c r => is_digit c && all_digits r
  end.

(** Digits, of which [seen] tells whether one has been read, then a point,
    then exactly six digits. *)
Fixpoint fixed_point_from (seen : bool) (s : string) : bool :=
  match s with
  | EmptyString => false
  | String c r =>
      if Ascii.eqb c "."
      then seen && (String.length r =? 6)%nat && all_digits r
      else is_digit c && fixed_point_from true r
  end.

(** A fixed-point decimal with six digits of fractional precision: an
    optional minus sign, one digit or more, a point, six digits. *)
Definition is_fixed_point_6 (s : string) : bool :=
  match s with
  | EmptyString => false
  | String c r =>
      if Ascii.eqb c "-" then fixed_point_from false r
      else fixed_point_from false s
  end.

(** A float that is a number and not an infinity. *)
Definition is_finite (v : float) : bool :=
  match Prim2SF v with
  | S754_zero _ | S754_finite _ _ _ => true
  | S754_infinity _ | S754_nan => false
  end.

(** The lines of the data file before the first atom line. *)
Definition preamble (n_atoms : nat) : list string :=
  [ "LAMMPS data file generated by automated_pipeline.py"; "";
    Py.str n_atoms +:+ " atoms"; "5 atom types"; "";
    "0.000000 198.000000 xlo xhi";
    "0.000000 198.000000 ylo yhi";
    "0.000000 198.000000 zlo zhi"; "";
    "Masses"; "";
    "1 50.9415"; "2 92.90638"; "3 180.94788"; "4 47.867"; "5 91.224"; "";
    "Atoms"; "" ].

End Pipeline.

(* ===================================================================== *)
(** ** The script from its first line *)
(* ===================================================================== *)

Module PyIO.

(** [f.readlines()] on a file opened with [open(name, 'r')]: the lines of
    the text, each with the newline that ends it; a carriage return, alone
    or before a newline, is read as a newline.  [cur] is the line read so
    far. *)
Fixpoint readlines_from (cur : string) (s : string) : list string :=
  match s with
  | EmptyString => if Py.is_empty cur then [] else [cur]
  | String c r =>
      if Ascii.eqb c (ascii_of_nat 10)
      then (cur +:+ newline) :: readlines_from EmptyString r
      else if Ascii.eqb c (ascii_of_nat 13)
      then (cur +:+ newline)
           :: match r with
              | String c' r' =>
                  if Ascii.eqb c' (ascii_of_nat 10)
                  then readlines_from EmptyString r'
                  else readlines_from EmptyString r
              | EmptyString => []
              end
      else readlines_from (cur +:+ String c EmptyString) r
  end.

Definition readlines (s : string) : list string := readlines_from EmptyString s.

End PyIO.

Section Script.

Variable py_float : string -> option float.
Context {G : Type} `{!PyRandom G}.

(** [os.system(cmd)]: the status the command returns and the files as it
    leaves them. *)
Variable os_system : string -> gmap string string -> Z * gmap string string.

Definition cmd_create : string :=
  "atomsk --create bcc 3.3 Fe orient [100] [010] [001] base.xsf".
Definition cmd_duplicate : string :=
  "atomsk base.xsf -duplicate 60 60 60 base-large.xsf".
Definition cmd_poly : string :=
  "atomsk --polycrystal base-large.xsf voronoi_random.txt poly.cfg".

(** A run of the script: how it ended, the files it leaves, and the
    commands it gave to the shell, in order. *)
Record run := mkRun {
  ended : outcome;
  files_left : gmap string string;
  commands_run : list string
}.

(** Lines 36-69, and the rest of the script on the lines of [poly.cfg].  A
    file that is there can be read; one that is not makes [open] raise. *)
Definition script (files : gmap string string) (g : G) : run :=
  let '(ret, files) := os_system cmd_create files in
  if negb (ret =? 0)%Z
  then mkRun (SystemExit "[ERROR] Atomsk command failed at step 1") files
             [cmd_create]
  else
    let '(ret, files) := os_system cmd_duplicate files in
    if negb (ret =? 0)%Z
    then mkRun (SystemExit "[ERROR] Atomsk command failed at step 2") files
               [cmd_create; cmd_duplicate]
    else
      let '(ret, files) := os_system cmd_poly files in
      if negb (ret =? 0)%Z
      then mkRun (SystemExit "[ERROR] Atomsk command failed at step 3") files
                 [cmd_create; cmd_duplicate; cmd_poly]
      else
        match files !! input_file with
        | None =>
            mkRun (Raised "FileNotFoundError") files
                  [cmd_create; cmd_duplicate; cmd_poly]
        | Some content =>
            let '(o, files') :=
              python_part py_float (PyIO.readlines content) g files in
            mkRun o files' [cmd_create; cmd_duplicate; cmd_poly]
        end.

(** The three commands one after the other, each on the files the one
    before left. *)
Definition after_create (files : gmap string string) := os_system cmd_create files.
Definition after_duplicate (files : gmap string string) :=
  os_system cmd_duplicate (after_create files).2.
Definition after_poly (files : gmap string string) :=
  os_system cmd_poly (after_duplicate files).2.

End Script.

(* ===================================================================== *)
(** ** A runtime to execute the model *)
(* ===================================================================== *)

(** The Fisher-Yates shuffle of [random.shuffle], over a linear
    congruential generator, and a reader of plain decimals: an instance of
    what the pipeline assumes of Python, on which it can be run. *)
Module Runtime.

Definition lcg_next (g : N) : N := ((g * 1103515245 + 12345) mod 2147483648)%N.

(** A draw in [0, n). *)
Definition randbelow (n : nat) (g : N) : nat * N :=
  (N.to_nat (g mod N.of_nat n), lcg_next g).

(** [x[i], x[j] = x[j], x[i]] *)
Definition swap (i j : nat) (x : list nat) : list nat :=
  match x !! i, x !! j with
  | Some a, Some b => <[j := a]> (<[i := b]> x)
  | _, _ => x
  end.

(** [for i in reversed(range(1, k + 1)): j = randbelow(i + 1); swap] *)
Fixpoint fisher_yates (k : nat) (x : list nat) (g : N) : list nat * N :=
  match k with
  | 0 => (x, g)
  | S k' =>
      let '(j, g') := randbelow (S k) g in
      fisher_yates k' (swap k j x) g'
  end.

Definition lcg_shuffle (x : list nat) (g : N) : list nat * N :=
  fisher_yates (length x - 1) x g.

#[global] Instance lcg_random : PyRandom N := lcg_shuffle.

(** A shell whose commands all return 0, the third leaving [content] in
    [poly.cfg]; and one whose second command returns 1. *)
Definition shell_ok (content : string) (cmd : string) (files : gmap string string)
  : Z * gmap string string :=
  (0%Z, if String.eqb cmd cmd_poly then <[input_file := content]> files else files).

Definition shell_fails_at_duplicate (cmd : string) (files : gmap string string)
  : Z * gmap string string :=
  (if String.eqb cmd cmd_duplicate then 1%Z else 0%Z, <[cmd := ""]> files).

Definition digit_value (c : ascii) : option Z :=
  let n := nat_of_ascii c in
  if ((48 <=? n) && (n <=? 57))%nat then Some (Z.of_nat (n - 48)) else None.

(** Digits with at most one point: the digits as an integer and the power
    of ten to divide it by. *)
Fixpoint decimal_digits (s : string) (seen_point : bool) (mant scale : Z) (ndig : nat)
  : option (Z * Z) :=
  match s with
  | EmptyString => if (ndig =? 0)%nat then None else Some (mant, scale)
  | String c r =>
      if Ascii.eqb c "."
      then (if seen_point then None else decimal_digits r true mant scale ndig)
      else
        d ← digit_value c;
        decimal_digits r seen_point (10 * mant + d)
          (if seen_point then 10 * scale else scale)%Z (S ndig)
  end.

Definition float_of_Z (n : Z) : float := PrimFloat.of_uint63 (Uint63.of_Z n).

Definition lower (c : ascii) : ascii :=
  let n := nat_of_ascii c in
  if ((65 <=? n) && (n <=? 90))%nat then ascii_of_nat (n + 32) else c.

Fixpoint lowercase (s : string) : string :=
  match s with
  | EmptyString => EmptyString
  | String c r => String (lower c) (lowercase r)
  end.

(** The names [float] reads in any case: [inf], [infinity] and [nan]. *)
Definition named_float (s : string) : option float :=
  let l := lowercase s in
  if String.eqb l "inf" || String.eqb l "infinity" then Some infinity
  else if String.eqb l "nan" then Some nan
  else None.

(** A number without its sign. *)
Definition unsigned_float (s : string) : option float :=
  match named_float s with
  | Some v => Some v
  | None =>
      '(m, sc) ← decimal_digits s false 0 1 0;
      Some (PrimFloat.div (float_of_Z m) (float_of_Z sc))
  end.

(** [float(s)] for a plain decimal [s] (a sign, digits, one point), the
    nearest binary64 number for up to 15 digits, and for the names of the
    infinities and of not-a-number; any other string is refused. *)
Definition decimal_float (s : string) : option float :=
  match s with
  | String "-" r => PrimFloat.opp <$> unsigned_float r
  | String "+" r => unsigned_float r
  | _ => unsigned_float s
  end.

End Runtime.

(** Concrete inputs on which the model is run. *)
Module Examples.

Definition line (s : string) : string := s +:+ newline.

(** A configuration with a header, the marker line and eight body lines,
    five of them well-formed. *)
Definition sample_cfg : list string :=
  [ line "Number of particles = 5"; line "A = 1.0 Angstrom";
    line "entry_count = 4"; line "55.845"; line "Fe";
    line "0.25 0.5 0.75 1"; line "0.5 0.5"; line "0 0 0 2"; line "";
    line "abc 1 2 3"; line "1 0.125 0.5 3 extra"; line "  0.5 0.5 0.5 7";
    "0.75 0.25 1 7" ].

Definition sample_atoms : list Atom :=
  [ mkAtom 0.25 0.5 0.75 "1" 0; mkAtom 0 0 0 "2" 0; mkAtom 1 0.125 0.5 "3" 0;
    mkAtom 0.5 0.5 0.5 "7" 0; mkAtom 0.75 0.25 1 "7" 0 ].

(** Three atoms: the size at which four groups of [round(0.6) = 1] do not
    fit. *)
Definition three_atoms : list Atom :=
  [ mkAtom 0 0 0 "1" 0; mkAtom 0.5 0.5 0.5 "1" 0; mkAtom 1 1 1 "2" 0 ].

(** Two atoms whose x coordinates are exactly 2.0 apart. *)
Definition boundary_atoms : list Atom :=
  [ mkAtom 0 0.5 0.5 "1" 0; mkAtom 2 0.5 0.5 "1" 0 ].

(** A file without the marker. *)
Definition no_marker_cfg : list string :=
  [ line "Number of particles = 2"; line "0.25 0.5 0.75 1"; line "0 0 0 2" ].

(** A file whose body holds no well-formed line. *)
Definition empty_body_cfg : list string :=
  [ line "Number of particles = 0"; line "Fe"; line "0.5 0.5"; line "x y z 1" ].

(** A file whose only atom has an infinite x coordinate. *)
Definition infinite_cfg : list string :=
  [ line "Number of particles = 1"; line "Fe"; line "inf 0 0 1" ].

End Examples.

Local Close Scope string_scope.

(* ===================================================================== *)
(** ** Properties of the built-ins *)
(* ===================================================================== *)

Module PyFacts.

Lemma split_from_lstrip s : Py.split_from EmptyString (Py.lstrip s) = Py.split_from EmptyString s.
Proof.
  induction s as [|c r IH]; simpl; [done|].
  destruct (Py.isspace c) eqn:Hc; simpl; [done|]. by rewrite Hc.
Qed.

Lemma split_from_rstrip s : ∀ cur, Py.split_from cur (Py.rstrip s) = Py.split_from cur s.
Proof.
  induction s as [|c r IH]; intros cur; simpl; [done|].
  destruct (Py.is_empty (Py.rstrip r) && Py.isspace c) eqn:Hb; simpl.
  - apply andb_true_iff in Hb as [He Hc]. rewrite Hc.
    rewrite <- (IH EmptyString).
    destruct (Py.rstrip r); [|done]. simpl. by destruct (Py.is_empty cur).
  - destruct (Py.isspace c); by rewrite ?IH.
Qed.

(** [s.strip().split()] and [s.split()] are the same fields. *)
Lemma split_strip s : Py.split (Py.strip s) = Py.split s.
Proof. unfold Py.split, Py.strip. by rewrite split_from_rstrip, split_from_lstrip. Qed.

Lemma split_empty s : Py.is_empty s = true → Py.split s = [].
Proof. by destruct s. Qed.

End PyFacts.

(* ===================================================================== *)
(** ** The parser *)
(* ===================================================================== *)

Section ParserFacts.

Variable py_float : string -> option float.

(** Once the marker line is behind, every line goes to the atom part. *)
Lemma split_fold_found ls st :
  found_fe_line st = true →
  fold_left split_step ls st
  = mkSplit true (header_part st) (atom_part st ++ ls).
Proof.
  revert st. induction ls as [|l ls IH]; intros [f h a] Hf; simpl in *; subst.
  - by rewrite app_nil_r.
  - rewrite IH by done. simpl. by rewrite <- app_assoc.
Qed.

(** Before it, lines without the marker go to the header. *)
Lemma split_fold_header ls st :
  found_fe_line st = false →
  Forall (λ l, has_marker l = false) ls →
  fold_left split_step ls st
  = mkSplit false (header_part st ++ ls) (atom_part st).
Proof.
  revert st. induction ls as [|l ls IH]; intros [f h a] Hf Hall; simpl in *; subst.
  - by rewrite app_nil_r.
  - apply Forall_cons in Hall as [Hl Hall]. unfold has_marker in Hl.
    unfold split_step at 2. simpl. rewrite Hl.
    rewrite IH by done. simpl. by rewrite <- app_assoc.
Qed.

Lemma split_header_marker pre l post :
  Forall (λ h, has_marker h = false) pre →
  has_marker l = true →
  split_header (pre ++ l :: post) = mkSplit true (pre ++ [l]) post.
Proof.
  intros Hpre Hl. unfold split_header.
  rewrite fold_left_app, (split_fold_header pre) by done. simpl.
  unfold split_step at 2. simpl. unfold has_marker in Hl. rewrite Hl.
  by rewrite split_fold_found.
Qed.

Lemma split_header_no_marker lines :
  Forall (λ h, has_marker h = false) lines →
  split_header lines = mkSplit false lines [].
Proof. intros H. unfold split_header. by rewrite split_fold_header. Qed.

(** No line is lost or moved by the split. *)
Lemma split_fold_app ls : ∀ st,
  (found_fe_line st = false → atom_part st = []) →
  header_part (fold_left split_step ls st) ++ atom_part (fold_left split_step ls st)
  = header_part st ++ atom_part st ++ ls.
Proof.
  induction ls as [|l ls IH]; intros [f h a] Hinv; simpl in *.
  - by rewrite app_nil_r.
  - rewrite IH.
    + destruct f; simpl; [by rewrite <- !app_assoc|].
      rewrite Hinv by done. by rewrite <- !app_assoc.
    + destruct f; simpl; [done|]. intros _. by apply Hinv.
Qed.

Lemma split_header_app lines :
  header_part (split_header lines) ++ atom_part (split_header lines) = lines.
Proof. unfold split_header. by rewrite split_fold_app. Qed.

(** The loop body agrees with the record of the specification. *)
Lemma parse_line_spec line : parse_line py_float line = spec_record py_float line.
Proof.
  unfold parse_line, spec_record.
  destruct (Py.is_empty (Py.strip line)) eqn:He.
  - rewrite <- PyFacts.split_strip, (PyFacts.split_empty _ He). done.
  - rewrite PyFacts.split_strip.
    by destruct (Py.split line) as [|f0 [|f1 [|f2 [|f3 fs]]]].
Qed.

Lemma parse_fold body : ∀ atoms,
  fold_left (parse_step py_float) body atoms = atoms ++ omap (spec_record py_float) body.
Proof.
  induction body as [|l body IH]; intros atoms; simpl.
  - by rewrite app_nil_r.
  - rewrite IH. unfold parse_step. rewrite parse_line_spec.
    destruct (spec_record py_float l); simpl; [|done].
    by rewrite <- app_assoc.
Qed.

Lemma parse_atoms_omap body :
  parse_atoms py_float body = omap (spec_record py_float) body.
Proof. unfold parse_atoms. by rewrite parse_fold. Qed.

Lemma malformed_no_record line : malformed py_float line → spec_record py_float line = None.
Proof.
  unfold malformed, spec_record.
  intros [Hlen | (k & f & Hk & Hf & Hnone)].
  - destruct (Py.split line) as [|f0 [|f1 [|f2 [|f3 fs]]]]; simpl in *; try done. lia.
  - destruct (Py.split line) as [|f0 [|f1 [|f2 [|f3 fs]]]]; try done.
    destruct k as [|[|[|k]]]; simpl in Hf; try lia; simplify_eq; rewrite Hnone; try done.
    + by destruct (py_float f0).
    + destruct (py_float f0); [|done]. by destruct (py_float f1).
Qed.

End ParserFacts.

(* ===================================================================== *)
(** ** The species assigner *)
(* ===================================================================== *)

Section AssignerFacts.

Implicit Types (atoms : list Atom) (fe : list nat).

Lemma stamp_cons t j idxs atoms :
  stamp t (j :: idxs) atoms = stamp t idxs (alter (set_type t) j atoms).
Proof. done. Qed.

Lemma stamp_length t idxs : ∀ atoms, length (stamp t idxs atoms) = length atoms.
Proof.
  induction idxs as [|j r IH]; intros atoms; [done|].
  by rewrite stamp_cons, IH, length_alter.
Qed.

(** A loop of line 157-166 changes the atoms it names, and only those. *)
Lemma stamp_lookup t idxs i : ∀ atoms,
  stamp t idxs atoms !! i
  = if decide (i ∈ idxs) then set_type t <$> atoms !! i else atoms !! i.
Proof.
  induction idxs as [|j r IH]; intros atoms.
  - by rewrite decide_False by apply not_elem_of_nil.
  - rewrite stamp_cons, IH, list_lookup_alter.
    destruct (decide (j = i)) as [->|Hne].
    + rewrite (decide_True (P := i ∈ i :: r)) by (apply elem_of_cons; auto).
      case_decide; [|done]. by destruct (atoms !! i).
    + case_decide as Hr.
      * by rewrite decide_True by (apply elem_of_cons; auto).
      * rewrite decide_False; [done|]. intros [?|?]%elem_of_cons; congruence.
Qed.

Lemma elem_of_slice fe a b p idx :
  NoDup fe → fe !! p = Some idx →
  idx ∈ Py.slice a b fe ↔ a ≤ p < b.
Proof.
  intros Hnd Hp. unfold Py.slice. rewrite elem_of_take. split.
  - intros (i & Hi & Hlt). rewrite lookup_drop in Hi.
    pose proof (NoDup_lookup _ _ _ _ Hnd Hi Hp). lia.
  - intros [Ha Hb]. exists (p - a). rewrite lookup_drop.
    replace (a + (p - a)) with p by lia. split; [done | lia].
Qed.

Lemma elem_of_slice_from fe a p idx :
  NoDup fe → fe !! p = Some idx →
  idx ∈ Py.slice_from a fe ↔ a ≤ p.
Proof.
  intros Hnd Hp. unfold Py.slice_from. rewrite list_elem_of_lookup. split.
  - intros (i & Hi). rewrite lookup_drop in Hi.
    pose proof (NoDup_lookup _ _ _ _ Hnd Hi Hp). lia.
  - intros Ha. exists (p - a). rewrite lookup_drop.
    by replace (a + (p - a)) with p by lia.
Qed.

Lemma assign_species_length fe atoms :
  length (assign_species fe atoms) = length atoms.
Proof. unfold assign_species. by rewrite !stamp_length. Qed.

(** The atom named at position [p] of the permutation gets the species of
    that position, and keeps everything else. *)
Lemma assign_species_position fe atoms p idx :
  NoDup fe → fe !! p = Some idx →
  assign_species fe atoms !! idx
  = set_type (species_at_position (quota (length atoms)) p) <$> atoms !! idx.
Proof.
  intros Hnd Hp. unfold assign_species, species_at_position.
  set (q := quota (length atoms)).
  rewrite !stamp_lookup.
  pose proof (elem_of_slice_from fe (q + q + q + q) p idx Hnd Hp) as H5.
  pose proof (elem_of_slice fe (q + q + q) (q + q + q + q) p idx Hnd Hp) as H4.
  pose proof (elem_of_slice fe (q + q) (q + q + q) p idx Hnd Hp) as H3.
  pose proof (elem_of_slice fe q (q + q) p idx Hnd Hp) as H2.
  pose proof (elem_of_slice fe 0 q p idx Hnd Hp) as H1.
  destruct (atoms !! idx) as [a|]; simpl; [|by repeat case_decide].
  repeat case_decide;
    repeat match goal with
           | H : _ ∈ _ |- _ => first [rewrite H1 in H | rewrite H2 in H | rewrite H3 in H
                                     | rewrite H4 in H | rewrite H5 in H]
           | H : _ ∉ _ |- _ => first [rewrite H1 in H | rewrite H2 in H | rewrite H3 in H
                                     | rewrite H4 in H | rewrite H5 in H]
           end;
    repeat case_match;
    repeat match goal with
           | H : (_ <? _)%nat = true |- _ => apply Nat.ltb_lt in H
           | H : (_ <? _)%nat = false |- _ => apply Nat.ltb_ge in H
           end;
    simpl; try done; exfalso; lia.
Qed.

(** An index the permutation does not name is left alone. *)
Lemma assign_species_untouched fe atoms i :
  i ∉ fe → assign_species fe atoms !! i = atoms !! i.
Proof.
  intros Hi. unfold assign_species. rewrite !stamp_lookup.
  assert (∀ a b, i ∉ Py.slice a b fe) as Hs.
  { intros a b Hin. apply Hi. unfold Py.slice in Hin.
    apply elem_of_take in Hin as (k & Hk & _). rewrite lookup_drop in Hk.
    by eapply list_elem_of_lookup_2. }
  assert (∀ a, i ∉ Py.slice_from a fe) as Hf.
  { intros a Hin. apply Hi. unfold Py.slice_from in Hin.
    apply list_elem_of_lookup in Hin as (k & Hk). rewrite lookup_drop in Hk.
    by eapply list_elem_of_lookup_2. }
  by rewrite !decide_False by auto.
Qed.

Lemma species_at_position_range q p : 1 ≤ species_at_position q p ≤ 5.
Proof. unfold species_at_position. repeat case_match; lia. Qed.

(** The five slices are the permutation, cut in order. *)
Lemma species_indices_partition fe n :
  species_indices 1 fe n ++ species_indices 2 fe n ++ species_indices 3 fe n
    ++ species_indices 4 fe n ++ species_indices 5 fe n = fe.
Proof.
  unfold species_indices, Py.slice, Py.slice_from. set (q := quota n).
  replace (q - 0) with q by lia.
  replace (q + q - q) with q by lia.
  replace (q + q + q - (q + q)) with q by lia.
  replace (q + q + q + q - (q + q + q)) with q by lia.
  rewrite drop_0, <- !drop_drop. by rewrite !take_drop.
Qed.

Lemma species_indices_length fe n t :
  1 ≤ t ≤ 4 →
  length (species_indices t fe n)
  = Nat.min (quota n) (length fe - (t - 1) * quota n).
Proof.
  intros Ht. unfold species_indices, Py.slice.
  destruct t as [|[|[|[|[|t]]]]]; try lia;
    rewrite length_take, length_drop; f_equal; lia.
Qed.

Lemma species_indices_length_5 fe n :
  length (species_indices 5 fe n) = length fe - 4 * quota n.
Proof. unfold species_indices, Py.slice_from. rewrite length_drop. lia. Qed.

End AssignerFacts.

(** *** Counting the species along a rearrangement of the indices *)

Section Counting.

Lemma fmap_constant {A B} (f : A → B) (c : B) (l : list A) :
  (∀ x, x ∈ l → f x = c) → f <$> l = replicate (length l) c.
Proof.
  induction l as [|x l IH]; intros Hf; [done|].
  rewrite fmap_cons. cbn [length replicate]. f_equal.
  - apply Hf, list_elem_of_here.
  - apply IH. intros y Hy. by apply Hf, list_elem_of_further.
Qed.

Lemma count_replicate (t c n : nat) :
  length (filter (λ k, k = t) (replicate n c)) = if decide (c = t) then n else 0.
Proof.
  induction n as [|n IH]; simpl; [by case_decide|].
  rewrite filter_cons. destruct (decide (c = t)); simpl; by rewrite IH.
Qed.

Lemma species_count_fmap t (atoms : list Atom) :
  species_count t atoms = length (filter (λ k, k = t) (atom_type <$> atoms)).
Proof.
  unfold species_count. induction atoms as [|a atoms IH]; [done|].
  rewrite fmap_cons, !filter_cons. repeat case_decide; simpl; try done; by rewrite IH.
Qed.

Lemma types_by_index (atoms : list Atom) :
  atom_type <$> atoms = type_at atoms <$> seq 0 (length atoms).
Proof.
  apply list_eq. intros i. rewrite !list_lookup_fmap. unfold type_at.
  destruct (decide (i < length atoms)) as [Hlt|Hge].
  - rewrite lookup_seq_lt by done. simpl.
    destruct (lookup_lt_is_Some_2 atoms i Hlt) as [a Ha]. by rewrite Ha.
  - rewrite lookup_seq_ge, (lookup_ge_None_2 atoms) by lia. done.
Qed.

Context (fe : list nat) (atoms : list Atom).
Hypothesis Hperm : fe ≡ₚ seq 0 (length atoms).

Lemma perm_NoDup : NoDup fe.
Proof using Hperm. rewrite Hperm. apply NoDup_seq. Qed.

Lemma perm_elem i : i ∈ fe ↔ i < length atoms.
Proof using Hperm. rewrite Hperm, elem_of_seq. lia. Qed.

Lemma perm_length : length fe = length atoms.
Proof using Hperm. by rewrite Hperm, length_seq. Qed.

Lemma species_indices_sub t i :
  i ∈ species_indices t fe (length atoms) → i ∈ fe.
Proof.
  intros Hin. rewrite <- (species_indices_partition fe (length atoms)).
  rewrite !elem_of_app.
  destruct t as [|[|[|[|[|[|t]]]]]]; auto; by apply not_elem_of_nil in Hin.
Qed.

(** The atoms named by the slice of species [t] carry species [t]. *)
Lemma assign_species_in_slice t i :
  1 ≤ t ≤ 5 →
  i ∈ species_indices t fe (length atoms) →
  type_at (assign_species fe atoms) i = t.
Proof using Hperm.
  intros Ht Hin. pose proof perm_NoDup as Hnd.
  pose proof (species_indices_sub t i Hin) as Hfe.
  apply list_elem_of_lookup in Hfe as [p Hp].
  assert (i < length atoms) as Hi by (apply perm_elem; by eapply list_elem_of_lookup_2).
  destruct (lookup_lt_is_Some_2 atoms i Hi) as [a Ha].
  unfold type_at. rewrite (assign_species_position fe atoms p i Hnd Hp), Ha. simpl.
  unfold species_at_position. unfold species_indices in Hin.
  destruct t as [|[|[|[|[|[|t]]]]]]; try lia.
  - apply (elem_of_slice _ _ _ p i Hnd Hp) in Hin.
    repeat case_match; try done; apply Nat.ltb_ge in H; lia.
  - apply (elem_of_slice _ _ _ p i Hnd Hp) in Hin.
    repeat case_match; try done;
      repeat match goal with
             | H : (_ <? _)%nat = true |- _ => apply Nat.ltb_lt in H
             | H : (_ <? _)%nat = false |- _ => apply Nat.ltb_ge in H
             end; lia.
  - apply (elem_of_slice _ _ _ p i Hnd Hp) in Hin.
    repeat case_match; try done;
      repeat match goal with
             | H : (_ <? _)%nat = true |- _ => apply Nat.ltb_lt in H
             | H : (_ <? _)%nat = false |- _ => apply Nat.ltb_ge in H
             end; lia.
  - apply (elem_of_slice _ _ _ p i Hnd Hp) in Hin.
    repeat case_match; try done;
      repeat match goal with
             | H : (_ <? _)%nat = true |- _ => apply Nat.ltb_lt in H
             | H : (_ <? _)%nat = false |- _ => apply Nat.ltb_ge in H
             end; lia.
  - apply (elem_of_slice_from _ _ p i Hnd Hp) in Hin.
    repeat case_match; try done;
      repeat match goal with
             | H : (_ <? _)%nat = true |- _ => apply Nat.ltb_lt in H
             | H : (_ <? _)%nat = false |- _ => apply Nat.ltb_ge in H
             end; lia.
Qed.

(** Read along the permutation, the species come in five blocks. *)
Lemma types_along_permutation :
  let n := length atoms in
  type_at (assign_species fe atoms) <$> fe
  = replicate (length (species_indices 1 fe n)) 1
    ++ replicate (length (species_indices 2 fe n)) 2
    ++ replicate (length (species_indices 3 fe n)) 3
    ++ replicate (length (species_indices 4 fe n)) 4
    ++ replicate (length (species_indices 5 fe n)) 5.
Proof using Hperm.
  intros n. rewrite <- (species_indices_partition fe n) at 2.
  rewrite !fmap_app.
  repeat f_equal; apply fmap_constant; intros i Hi;
    apply assign_species_in_slice; (lia || done).
Qed.

Lemma species_count_indices t :
  1 ≤ t ≤ 5 →
  species_count t (assign_species fe atoms)
  = length (species_indices t fe (length atoms)).
Proof using Hperm.
  intros Ht.
  rewrite species_count_fmap, types_by_index, assign_species_length.
  rewrite <- Hperm, types_along_permutation.
  rewrite !filter_app, !length_app, !count_replicate.
  destruct t as [|[|[|[|[|[|t]]]]]]; try lia; repeat case_decide; lia.
Qed.

Lemma species_counts_sum :
  species_count 1 (assign_species fe atoms) + species_count 2 (assign_species fe atoms)
  + species_count 3 (assign_species fe atoms) + species_count 4 (assign_species fe atoms)
  + species_count 5 (assign_species fe atoms) = length atoms.
Proof using Hperm.
  rewrite !species_count_indices by lia.
  pose proof (f_equal length (species_indices_partition fe (length atoms))) as Hlen.
  rewrite !length_app, perm_length in Hlen. lia.
Qed.

End Counting.

(* ===================================================================== *)
(** ** The data file, line by line *)
(* ===================================================================== *)

Section WriterFacts.

Lemma append_cons c s1 s2 : String c s1 +:+ s2 = String c (s1 +:+ s2).
Proof. done. Qed.

Lemma append_nil_r s : s +:+ EmptyString = s.
Proof. induction s as [|c s IH]; [done|]. by rewrite append_cons, IH. Qed.

Lemma append_assoc s1 s2 s3 : (s1 +:+ s2) +:+ s3 = s1 +:+ s2 +:+ s3.
Proof. induction s1 as [|c s1 IH]; [done|]. by rewrite !append_cons, IH. Qed.

Lemma has_newline_app s1 s2 :
  has_newline (s1 +:+ s2) = has_newline s1 || has_newline s2.
Proof.
  induction s1 as [|c s1 IH]; [done|].
  rewrite append_cons. simpl. rewrite IH.
  by destruct (Ascii.eqb c (ascii_of_nat 10)).
Qed.

(** Text without a newline extends the current line. *)
Lemma file_lines_segment a : ∀ cur rest,
  has_newline a = false →
  file_lines_from cur (a +:+ rest) = file_lines_from (cur +:+ a) rest.
Proof.
  induction a as [|c a IH]; intros cur rest Hnl.
  - by rewrite append_nil_r.
  - simpl in Hnl. apply orb_false_iff in Hnl as [Hc Ha].
    rewrite append_cons. simpl. rewrite Hc, IH by done.
    by rewrite append_assoc.
Qed.

(** A newline ends it. *)
Lemma file_lines_newline cur rest :
  file_lines_from cur (newline +:+ rest) = cur :: file_lines_from EmptyString rest.
Proof. done. Qed.

Lemma has_newline_uint d : has_newline (NilEmpty.string_of_uint d) = false.
Proof. induction d; simpl; done. Qed.

Lemma has_newline_digits n : has_newline (Py.digits n) = false.
Proof.
  unfold Py.digits, NilZero.string_of_uint.
  destruct (N.to_uint n) eqn:E; try done; rewrite <- E; apply has_newline_uint.
Qed.

Lemma has_newline_str n : has_newline (Py.str n) = false.
Proof. apply has_newline_digits. Qed.

Lemma digit_not_newline k : Ascii.eqb (Py.digit k) (ascii_of_nat 10) = false.
Proof.
  unfold Py.digit.
  assert (Z.to_nat (k mod 10) < 10) as Hlt
    by (pose proof (Z.mod_pos_bound k 10); lia).
  destruct (Z.to_nat (k mod 10)) as [|[|[|[|[|[|[|[|[|[|n]]]]]]]]]];
    [reflexivity.. | exfalso; lia].
Qed.

Lemma has_newline_frac6 k : has_newline (Py.frac6 k) = false.
Proof. unfold Py.frac6. cbn [has_newline]. rewrite !digit_not_newline. reflexivity. Qed.

Lemma has_newline_format_6f v : has_newline (Py.format_6f v) = false.
Proof.
  unfold Py.format_6f.
  destruct (Prim2SF v) as [s|s| |s m e]; [by destruct s | by destruct s | done |].
  rewrite !has_newline_app, has_newline_digits, has_newline_frac6.
  by destruct s.
Qed.

(** A finite number is written with an integer part, a point and six
    digits. *)
Lemma format_6f_finite v s m e :
  Prim2SF v = S754_finite s m e →
  ∃ (i : N) (k : Z),
    Py.format_6f v
    = (if s then "-" else "")%string +:+ Py.digits i +:+ "." +:+ Py.frac6 k
    ∧ String.length (Py.frac6 k) = 6.
Proof. intros Hv. unfold Py.format_6f. rewrite Hv. by eexists _, _. Qed.

Lemma is_digit_not c a : is_digit a = false → is_digit c = true → Ascii.eqb c a = false.
Proof.
  intros Ha Hc. destruct (Ascii.eqb c a) eqn:E; [|done].
  apply Ascii.eqb_eq in E. congruence.
Qed.

Lemma is_digit_digit k : is_digit (Py.digit k) = true.
Proof.
  unfold Py.digit.
  assert (Z.to_nat (k mod 10) < 10) as Hlt
    by (pose proof (Z.mod_pos_bound k 10); lia).
  destruct (Z.to_nat (k mod 10)) as [|[|[|[|[|[|[|[|[|[|n]]]]]]]]]];
    [reflexivity.. | exfalso; lia].
Qed.

Lemma all_digits_frac6 k : all_digits (Py.frac6 k) = true.
Proof. unfold Py.frac6. cbn [all_digits]. rewrite !is_digit_digit. reflexivity. Qed.

Lemma length_frac6 k : String.length (Py.frac6 k) = 6.
Proof. reflexivity. Qed.

Lemma all_digits_uint d : all_digits (NilEmpty.string_of_uint d) = true.
Proof. induction d; simpl; done. Qed.

(** The integer part is never empty. *)
Lemma digits_shape n :
  ∃ c r, Py.digits n = String c r ∧ is_digit c = true ∧ all_digits r = true.
Proof.
  unfold Py.digits, NilZero.string_of_uint.
  destruct (N.to_uint n) as [|d|d|d|d|d|d|d|d|d|d]; cbn [NilEmpty.string_of_uint];
    eexists _, _; (split; [reflexivity|]); (split; [reflexivity|]);
    first [reflexivity | apply all_digits_uint].
Qed.

Lemma fixed_point_from_digits r f : ∀ seen,
  all_digits r = true → all_digits f = true → String.length f = 6 →
  seen = true ∨ r ≠ EmptyString →
  fixed_point_from seen (r +:+ "." +:+ f) = true.
Proof.
  induction r as [|c r IH]; intros seen Hr Hf Hlen Hseen.
  - destruct Hseen as [-> | ?]; [|done].
    change (EmptyString +:+ "." +:+ f)%string with (String "." f).
    cbn [fixed_point_from]. change (Ascii.eqb "." ".") with true.
    cbn match. by rewrite Hlen, Hf.
  - cbn [all_digits] in Hr. apply andb_true_iff in Hr as [Hc Hr].
    rewrite append_cons. cbn [fixed_point_from].
    rewrite (is_digit_not c "." eq_refl Hc), Hc. apply IH; auto.
Qed.

(** What the six-decimal format writes: a fixed-point decimal with six
    digits for a finite number, and the names [inf], [-inf] and [nan] for
    the others. *)
Lemma format_6f_shape v :
  (is_finite v = true → is_fixed_point_6 (Py.format_6f v) = true)
  ∧ (is_finite v = false →
     Py.format_6f v = "inf"%string ∨ Py.format_6f v = "-inf"%string
     ∨ Py.format_6f v = "nan"%string).
Proof.
  unfold is_finite, Py.format_6f.
  destruct (Prim2SF v) as [sg|sg| |sg m e].
  - split; [intros _; by destruct sg | done].
  - split; [done | intros _; destruct sg; auto].
  - split; [done | auto].
  - split; [intros _ | done].
    destruct (digits_shape
                (Z.to_N (Py.round_half_even (Z.pos m * 1000000) e `div` 1000000)))
      as (c & r & -> & Hc & Hr).
    set (f := Py.frac6 _).
    assert (fixed_point_from false (String c r +:+ "." +:+ f) = true) as Hfix.
    { apply fixed_point_from_digits.
      - cbn [all_digits]. by rewrite Hc, Hr.
      - apply all_digits_frac6.
      - apply length_frac6.
      - by right. }
    destruct sg.
    + change ("-" +:+ String c r +:+ "." +:+ f)%string
        with (String "-" (String c r +:+ "." +:+ f)).
      unfold is_fixed_point_6. change (Ascii.eqb "-" "-") with true. exact Hfix.
    + change ("" +:+ String c r +:+ "." +:+ f)%string
        with (String c (r +:+ "." +:+ f)).
      unfold is_fixed_point_6. rewrite (is_digit_not c "-" eq_refl Hc).
      exact Hfix.
Qed.

Lemma has_newline_atom_line i a : has_newline (atom_line i a) = false.
Proof.
  unfold atom_line.
  by rewrite !has_newline_app, !has_newline_str, !has_newline_format_6f.
Qed.

(** The loop over the atoms writes one line each, numbered from [i]. *)
Lemma file_lines_write_atoms atoms : ∀ i,
  file_lines_from EmptyString (write_atoms i atoms)
  = imap (λ k atom, atom_line (i + k) atom) atoms.
Proof.
  induction atoms as [|a atoms IH]; intros i; [done|].
  cbn [write_atoms]. rewrite file_lines_segment by apply has_newline_atom_line.
  rewrite file_lines_newline, IH, imap_cons. simpl.
  rewrite Nat.add_0_r. f_equal. apply imap_ext. intros k x _. simpl.
  by rewrite Nat.add_succ_r.
Qed.

Lemma box_line_x : box_line xlo xhi "xlo xhi" = "0.000000 198.000000 xlo xhi"%string.
Proof. vm_compute. reflexivity. Qed.

Lemma box_line_y : box_line ylo yhi "ylo yhi" = "0.000000 198.000000 ylo yhi"%string.
Proof. vm_compute. reflexivity. Qed.

Lemma box_line_z : box_line zlo zhi "zlo zhi" = "0.000000 198.000000 zlo zhi"%string.
Proof. vm_compute. reflexivity. Qed.

Lemma mass_line_literal t :
  mass_line t = (Py.str t +:+ " " +:+ mass_dict t)%string.
Proof. done. Qed.

(** The written file, read back as lines. *)
Lemma file_lines_writer atoms :
  file_lines (writer atoms)
  = preamble (length atoms) ++ imap (λ k atom, atom_line (S k) atom) atoms.
Proof.
  unfold file_lines, writer.
  rewrite box_line_x, box_line_y, box_line_z, !mass_line_literal.
  repeat first
    [ rewrite file_lines_newline
    | rewrite file_lines_segment by first [ apply has_newline_str | reflexivity ] ].
  rewrite file_lines_write_atoms. reflexivity.
Qed.

End WriterFacts.

(* ===================================================================== *)
(** ** The runtime is an instance of what the pipeline assumes *)
(* ===================================================================== *)

Module RuntimeFacts.

Lemma swap_perm i j x : Runtime.swap i j x ≡ₚ x.
Proof.
  unfold Runtime.swap.
  destruct (x !! i) as [a|] eqn:Hi; [|done].
  destruct (x !! j) as [b|] eqn:Hj; [|done].
  by apply Permutation_insert_swap.
Qed.

Lemma fisher_yates_perm k : ∀ x g, (Runtime.fisher_yates k x g).1 ≡ₚ x.
Proof.
  induction k as [|k IH]; intros x g; [done|].
  cbn [Runtime.fisher_yates]. destruct (Runtime.randbelow (S (S k)) g) as [j g'].
  by rewrite IH, swap_perm.
Qed.

Lemma lcg_shuffle_perm l g : (Runtime.lcg_shuffle l g).1 ≡ₚ l.
Proof. apply fisher_yates_perm. Qed.

#[global] Instance lcg_random_law : PyRandomLaw N.
Proof. exact lcg_shuffle_perm. Qed.

End RuntimeFacts.

(* ===================================================================== *)
(** ** The stages under any generator and any reader of numbers *)
(* ===================================================================== *)

Section StageFacts.

Variable py_float : string -> option float.
Context {G : Type} `{!PyRandom G, !PyRandomLaw G}.

Lemma axis_range_cons v vs : is_Some (axis_range (v :: vs)).
Proof. by eexists. Qed.

(** On a list that is not empty the normalizer takes its decision. *)
Lemma normalizer_total (atoms : list Atom) :
  atoms ≠ [] →
  ∃ x_range y_range z_range,
    axis_range (atom_x <$> atoms) = Some x_range
    ∧ axis_range (atom_y <$> atoms) = Some y_range
    ∧ axis_range (atom_z <$> atoms) = Some z_range.
Proof.
  destruct atoms as [|a atoms]; [done|]. intros _.
  rewrite !fmap_cons.
  destruct (axis_range_cons (atom_x a) (atom_x <$> atoms)) as [xr ->].
  destruct (axis_range_cons (atom_y a) (atom_y <$> atoms)) as [yr ->].
  destruct (axis_range_cons (atom_z a) (atom_z <$> atoms)) as [zr ->].
  by exists xr, yr, zr.
Qed.

Lemma normalizer_decision (atoms : list Atom) x_range y_range z_range :
  axis_range (atom_x <$> atoms) = Some x_range →
  axis_range (atom_y <$> atoms) = Some y_range →
  axis_range (atom_z <$> atoms) = Some z_range →
  normalizer atoms
  = Some (if is_fractional x_range y_range z_range
          then scale_atom <$> atoms else atoms).
Proof. intros Hx Hy Hz. unfold normalizer. by rewrite Hx, Hy, Hz. Qed.

Lemma normalizer_length (atoms atoms1 : list Atom) :
  normalizer atoms = Some atoms1 → length atoms1 = length atoms.
Proof.
  unfold normalizer. intros H.
  destruct (axis_range (atom_x <$> atoms)); [|done].
  destruct (axis_range (atom_y <$> atoms)); [|done].
  destruct (axis_range (atom_z <$> atoms)); [|done].
  simpl in H. injection H as <-. case_match; by rewrite ?length_fmap.
Qed.

Lemma fe_indices_perm n (g : G) : fe_indices_of n g ≡ₚ seq 0 n.
Proof. apply shuffle_perm. Qed.

Lemma species_assigner_length atoms (g : G) :
  length (species_assigner atoms g) = length atoms.
Proof. apply assign_species_length. Qed.

(** The assigner rewrites the species of an atom and nothing else, and
    leaves it in its place. *)
Lemma species_assigner_lookup atoms (g : G) i a :
  atoms !! i = Some a →
  ∃ t, 1 ≤ t ≤ 5 ∧ species_assigner atoms g !! i = Some (set_type t a).
Proof.
  intros Ha. pose proof (fe_indices_perm (length atoms) g) as Hperm.
  assert (i ∈ fe_indices_of (length atoms) g) as Hin.
  { apply (perm_elem _ _ Hperm). by eapply lookup_lt_Some. }
  apply list_elem_of_lookup in Hin as [p Hp].
  exists (species_at_position (quota (length atoms)) p). split.
  - apply species_at_position_range.
  - unfold species_assigner.
    rewrite (assign_species_position _ _ p i (perm_NoDup _ _ Hperm) Hp), Ha. done.
Qed.

Lemma python_part_exit lines (g : G) files :
  parse_atoms py_float (atom_part (split_header lines)) = [] →
  python_part py_float lines g files
  = (SystemExit "[ERROR] No atoms parsed. Exiting.", files).
Proof. intros H. unfold python_part. by rewrite H. Qed.

Lemma python_part_completed lines (g : G) files :
  let atoms := parse_atoms py_float (atom_part (split_header lines)) in
  atoms ≠ [] →
  ∃ atoms1,
    normalizer atoms = Some atoms1
    ∧ transform atoms g = Some (species_assigner atoms1 g)
    ∧ python_part py_float lines g files
      = (Completed, <[output_file := writer (species_assigner atoms1 g)]> files).
Proof.
  intros atoms Hne.
  destruct (normalizer_total atoms Hne) as (xr & yr & zr & Hx & Hy & Hz).
  pose proof (normalizer_decision atoms xr yr zr Hx Hy Hz) as Hn.
  eexists. split; [exact Hn|].
  unfold python_part, transform. fold atoms. rewrite Hn. simpl.
  destruct atoms; [done|]. done.
Qed.

(** The generator reaches the result through the permutation alone. *)
Lemma python_part_by_permutation lines (g1 g2 : G) files :
  let n := length (parse_atoms py_float (atom_part (split_header lines))) in
  fe_indices_of n g1 = fe_indices_of n g2 →
  python_part py_float lines g1 files = python_part py_float lines g2 files.
Proof.
  intros n Hfe. unfold python_part, transform.
  destruct (normalizer _) as [atoms1|] eqn:Hn; simpl; [|done].
  unfold species_assigner. rewrite (normalizer_length _ _ Hn).
  fold n. by rewrite Hfe.
Qed.

End StageFacts.

(* ===================================================================== *)
(** ** The specification's claims *)
(* ===================================================================== *)

Section Claims.

Variable py_float : string -> option float.
Context {G : Type} `{!PyRandom G, !PyRandomLaw G}.

(** C1, as the code has it.  For a parsed atom set of size N > 0 whose four
    groups of round(0.2 N) fit in it (4 round(0.2 N) <= N), species 1, 2, 3
    and 4 get exactly round(0.2 N) atoms each and species 5 gets the
    N - 4 round(0.2 N) that remain; and for every N the index at position p
    of the permutation receives the species of the slice p falls in, the
    slices being the first four contiguous runs of round(0.2 N) positions, in
    the order 1, 2, 3, 4, and species 5 from position 4 round(0.2 N) on. *)
Theorem species_groups_by_quota (atoms : list Atom) (g : G) :
  let n := length atoms in
  let q := quota n in
  let fe := fe_indices_of n g in
  let final := species_assigner atoms g in
  0 < n →
  (∀ p idx, fe !! p = Some idx → type_at final idx = species_at_position q p)
  ∧ (4 * q ≤ n →
     (∀ t, 1 ≤ t ≤ 4 → species_count t final = q)
     ∧ species_count 5 final = n - 4 * q).
Proof.
  intros n q fe final Hn.
  pose proof (fe_indices_perm n g) as Hperm. fold fe in Hperm.
  split.
  - intros p idx Hp.
    assert (idx < n) as Hidx
      by (apply (perm_elem _ _ Hperm); by eapply list_elem_of_lookup_2).
    destruct (lookup_lt_is_Some_2 atoms idx Hidx) as [a Ha].
    unfold type_at, final, species_assigner. fold n fe.
    by rewrite (assign_species_position fe atoms p idx (perm_NoDup _ _ Hperm) Hp), Ha.
  - intros Hfit. split.
    + intros t Ht. unfold final, species_assigner. fold n fe.
      rewrite (species_count_indices fe atoms Hperm) by lia. fold n.
      rewrite species_indices_length by done.
      rewrite (perm_length _ _ Hperm). fold n q.
      destruct t as [|[|[|[|[|t]]]]]; simpl; lia.
    + unfold final, species_assigner. fold n fe.
      rewrite (species_count_indices fe atoms Hperm) by lia. fold n.
      by rewrite species_indices_length_5, (perm_length _ _ Hperm).
Qed.

(** C2.  For a parsed atom set of size N > 0, after the species assigner
    every atom carries one species in 1..5 and is otherwise as it was, in
    its place; every index lies in exactly one of the five slices, no index
    occurs twice in them; and the five species counts add up to N. *)
Theorem species_assignment_total (atoms : list Atom) (g : G) :
  let n := length atoms in
  let fe := fe_indices_of n g in
  let final := species_assigner atoms g in
  0 < n →
  length final = n
  ∧ (∀ i a, atoms !! i = Some a →
       ∃ t, 1 ≤ t ≤ 5 ∧ final !! i = Some (set_type t a))
  ∧ (∀ i, i < n →
       ∃ t, 1 ≤ t ≤ 5 ∧ i ∈ species_indices t fe n
            ∧ ∀ t', i ∈ species_indices t' fe n → t' = t)
  ∧ NoDup (species_indices 1 fe n ++ species_indices 2 fe n
             ++ species_indices 3 fe n ++ species_indices 4 fe n
             ++ species_indices 5 fe n)
  ∧ species_count 1 final + species_count 2 final + species_count 3 final
    + species_count 4 final + species_count 5 final = n.
Proof.
  intros n fe final Hn.
  pose proof (fe_indices_perm n g) as Hperm. fold fe in Hperm.
  split; [apply species_assigner_length|].
  split; [intros i a Ha; by apply species_assigner_lookup|].
  split; [|split].
  - intros i Hi.
    assert (i ∈ fe) as Hin by by apply (perm_elem _ _ Hperm).
    assert (∀ t', i ∈ species_indices t' fe n → 1 ≤ t' ≤ 5) as Hrange.
    { intros t' Ht'. unfold species_indices in Ht'.
      destruct t' as [|[|[|[|[|[|t']]]]]]; try lia; by apply not_elem_of_nil in Ht'. }
    assert (∀ t', i ∈ species_indices t' fe n
                  → type_at (assign_species fe atoms) i = t') as Htype.
    { intros t' Ht'. apply (assign_species_in_slice fe atoms Hperm); auto. }
    rewrite <- (species_indices_partition fe n) in Hin.
    rewrite !elem_of_app in Hin.
    destruct Hin as [H1|[H2|[H3|[H4|H5]]]];
      [exists 1 | exists 2 | exists 3 | exists 4 | exists 5];
      (split; [lia|]); (split; [done|]);
      intros t' Ht'; rewrite <- (Htype t' Ht'); by apply Htype.
  - rewrite species_indices_partition. by apply (perm_NoDup _ atoms).
  - by apply species_counts_sum.
Qed.

(** C3.  When the three ranges are all strictly below 2 the normalizer
    returns the atoms in their order with each coordinate multiplied by
    198.0 and grain and species as they were; when one of the ranges is not
    strictly below 2 it returns the atoms as they are; a range that is
    exactly 2.0 is such a case. *)
Theorem normalizer_threshold (atoms : list Atom) (x_range y_range z_range : float) :
  axis_range (atom_x <$> atoms) = Some x_range →
  axis_range (atom_y <$> atoms) = Some y_range →
  axis_range (atom_z <$> atoms) = Some z_range →
  (PrimFloat.ltb x_range 2 = true ∧ PrimFloat.ltb y_range 2 = true
   ∧ PrimFloat.ltb z_range 2 = true →
   normalizer atoms
   = Some ((λ a, mkAtom (PrimFloat.mul (atom_x a) 198)
                        (PrimFloat.mul (atom_y a) 198)
                        (PrimFloat.mul (atom_z a) 198)
                        (atom_grain a) (atom_type a)) <$> atoms))
  ∧ (PrimFloat.ltb x_range 2 = false ∨ PrimFloat.ltb y_range 2 = false
     ∨ PrimFloat.ltb z_range 2 = false →
     normalizer atoms = Some atoms)
  ∧ (x_range = 2%float ∨ y_range = 2%float ∨ z_range = 2%float →
     normalizer atoms = Some atoms).
Proof.
  intros Hx Hy Hz. rewrite (normalizer_decision atoms _ _ _ Hx Hy Hz).
  unfold is_fractional. split; [|split].
  - by intros (-> & -> & ->).
  - intros [-> | [-> | ->]]; by rewrite ?andb_false_r.
  - intros [-> | [-> | ->]];
      change (PrimFloat.ltb 2 2) with false; by rewrite ?andb_false_r.
Qed.

(** C4.  When the three ranges are all strictly below 2, every atom
    reaches the writer in its place with each coordinate equal to the
    parsed coordinate times 198.0, one multiplication, and the written line
    shows these values. *)
Theorem scaling_applied_once (atoms : list Atom) (g : G)
    (x_range y_range z_range : float) :
  axis_range (atom_x <$> atoms) = Some x_range →
  axis_range (atom_y <$> atoms) = Some y_range →
  axis_range (atom_z <$> atoms) = Some z_range →
  PrimFloat.ltb x_range 2 = true →
  PrimFloat.ltb y_range 2 = true →
  PrimFloat.ltb z_range 2 = true →
  ∃ final,
    transform atoms g = Some final
    ∧ length final = length atoms
    ∧ ∀ i a, atoms !! i = Some a →
        ∃ t, final !! i
             = Some (mkAtom (PrimFloat.mul (atom_x a) 198)
                            (PrimFloat.mul (atom_y a) 198)
                            (PrimFloat.mul (atom_z a) 198)
                            (atom_grain a) t)
             ∧ file_lines (writer final) !! (19 + i)
               = Some (atom_line (S i)
                         (mkAtom (PrimFloat.mul (atom_x a) 198)
                                 (PrimFloat.mul (atom_y a) 198)
                                 (PrimFloat.mul (atom_z a) 198)
                                 (atom_grain a) t)).
Proof.
  intros Hx Hy Hz Lx Ly Lz.
  pose proof (normalizer_decision atoms _ _ _ Hx Hy Hz) as Hn.
  unfold is_fractional in Hn. rewrite Lx, Ly, Lz in Hn. simpl in Hn.
  exists (species_assigner (scale_atom <$> atoms) g).
  split; [unfold transform; by rewrite Hn|].
  split; [by rewrite species_assigner_length, length_fmap|].
  intros i a Ha.
  assert ((scale_atom <$> atoms) !! i = Some (scale_atom a)) as Hs
    by by rewrite list_lookup_fmap, Ha.
  destruct (species_assigner_lookup _ g i _ Hs) as (t & _ & Hf).
  exists t. split; [exact Hf|].
  rewrite file_lines_writer, lookup_app_r by (simpl; lia).
  replace (19 + i - length (preamble _)) with i by (simpl; lia).
  by rewrite list_lookup_imap, Hf.
Qed.

(** C5, as the code has it.  For a parse that yields N > 0 atoms the script
    completes and writes the data file; its third line is "N atoms"; after
    the 19 lines of the preamble, which end with "Atoms" and a blank line,
    come exactly N lines; line i of them (from 1) is the number i, the
    species of the i-th atom and its three coordinates as the six-decimal
    format writes them, separated by single spaces: a finite coordinate as
    a fixed-point decimal with six digits after the point, an infinite one
    as inf or -inf and a not-a-number as nan; and the i-th atom written is
    the i-th atom parsed, with its grain, its coordinates as parsed or
    scaled, and its species set. *)
Theorem output_atom_section (lines : list string) (g : G) (files : gmap string string) :
  let atoms := parse_atoms py_float (atom_part (split_header lines)) in
  let n := length atoms in
  0 < n →
  ∃ final content,
    python_part py_float lines g files
    = (Completed, <[output_file := content]> files)
    ∧ content = writer final
    ∧ length final = n
    ∧ file_lines content !! 2 = Some (Py.str n +:+ " atoms")%string
    ∧ take 19 (file_lines content) = preamble n
    ∧ length (drop 19 (file_lines content)) = n
    ∧ (∀ i a', final !! i = Some a' →
         file_lines content !! (19 + i)
         = Some (Py.str (S i) +:+ " " +:+ Py.str (atom_type a') +:+ " "
                 +:+ Py.format_6f (atom_x a') +:+ " "
                 +:+ Py.format_6f (atom_y a') +:+ " "
                 +:+ Py.format_6f (atom_z a'))%string
         ∧ ∀ v, v ∈ [atom_x a'; atom_y a'; atom_z a'] →
             (is_finite v = true → is_fixed_point_6 (Py.format_6f v) = true)
             ∧ (is_finite v = false →
                Py.format_6f v = "inf"%string ∨ Py.format_6f v = "-inf"%string
                ∨ Py.format_6f v = "nan"%string))
    ∧ (∀ i a, atoms !! i = Some a →
         ∃ t, 1 ≤ t ≤ 5
              ∧ (final !! i = Some (set_type t a)
                 ∨ final !! i = Some (set_type t (scale_atom a)))).
Proof.
  intros atoms n Hn.
  assert (atoms ≠ []) as Hne by (intros E; subst n; rewrite E in Hn; simpl in Hn; lia).
  destruct (python_part_completed py_float lines g files Hne)
    as (atoms1 & Hnorm & _ & Hrun). fold atoms in Hnorm.
  exists (species_assigner atoms1 g), (writer (species_assigner atoms1 g)).
  pose proof (normalizer_length _ _ Hnorm) as Hlen1. fold n in Hlen1.
  assert (length (species_assigner atoms1 g) = n) as Hlen
    by by rewrite species_assigner_length.
  split; [exact Hrun|]. split; [done|]. split; [exact Hlen|].
  rewrite file_lines_writer, Hlen.
  split; [done|].
  split; [by rewrite take_app_length' by done|].
  split; [by rewrite drop_app_length' by done; rewrite length_imap|].
  split.
  - intros i a' Ha'. split; [|intros v _; apply format_6f_shape].
    rewrite lookup_app_r by (simpl; lia).
    replace (19 + i - length (preamble n)) with i by (simpl; lia).
    by rewrite list_lookup_imap, Ha'.
  - intros i a Ha.
    destruct (normalizer_total atoms Hne) as (xr & yr & zr & Hx & Hy & Hz).
    rewrite (normalizer_decision atoms _ _ _ Hx Hy Hz) in Hnorm.
    injection Hnorm as <-.
    destruct (is_fractional xr yr zr).
    + assert ((scale_atom <$> atoms) !! i = Some (scale_atom a)) as Hs
        by by rewrite list_lookup_fmap, Ha.
      destruct (species_assigner_lookup _ g i _ Hs) as (t & Ht & Hf). eauto.
    + destruct (species_assigner_lookup _ g i _ Ha) as (t & Ht & Hf). eauto.
Qed.

(** C6.  The parser returns the records of the well-formed lines, in file
    order, and nothing else: a line with fewer than four fields, or with one
    of its first three fields not a number, changes nothing in the result,
    and a well-formed line puts its record at its place.  The parser is a
    total function: no line makes it stop. *)
Theorem parser_skips_malformed :
  (∀ body, parse_atoms py_float body = omap (spec_record py_float) body)
  ∧ (∀ pre line post, malformed py_float line →
       parse_atoms py_float (pre ++ line :: post) = parse_atoms py_float (pre ++ post))
  ∧ (∀ pre line post f0 f1 f2 f3 fs x y z,
       Py.split line = f0 :: f1 :: f2 :: f3 :: fs →
       py_float f0 = Some x → py_float f1 = Some y → py_float f2 = Some z →
       parse_atoms py_float (pre ++ line :: post)
       = parse_atoms py_float pre ++ mkAtom x y z f3 0 :: parse_atoms py_float post).
Proof.
  split; [apply parse_atoms_omap|]. split.
  - intros pre line post Hbad. rewrite !parse_atoms_omap, !omap_app. simpl.
    by rewrite (malformed_no_record py_float line Hbad).
  - intros pre line post f0 f1 f2 f3 fs x y z Hs H0 H1 H2.
    rewrite !parse_atoms_omap, omap_app. simpl.
    unfold spec_record at 2. by rewrite Hs, H0, H1, H2.
Qed.

(** C7.  When the parse yields no atom record the script ends in
    [sys.exit] with its message, the exit status is 1, and no file has been
    written. *)
Theorem empty_atom_set_aborts (lines : list string) (g : G) (files : gmap string string) :
  parse_atoms py_float (atom_part (split_header lines)) = [] →
  python_part py_float lines g files
  = (SystemExit "[ERROR] No atoms parsed. Exiting.", files)
  ∧ exit_status (python_part py_float lines g files).1 = 1%Z
  ∧ (python_part py_float lines g files).2 = files.
Proof. intros H. by rewrite (python_part_exit py_float lines g files H). Qed.

(** C8.  The header is the lines up to and including the first line that
    holds the marker, and every line after it is an atom line, whatever it
    holds. *)
Theorem header_split_first_marker (pre post : list string) (l : string) :
  Forall (λ h, has_marker h = false) pre →
  has_marker l = true →
  header_part (split_header (pre ++ l :: post)) = pre ++ [l]
  ∧ atom_part (split_header (pre ++ l :: post)) = post
  ∧ found_fe_line (split_header (pre ++ l :: post)) = true.
Proof. intros Hpre Hl. by rewrite (split_header_marker pre l post Hpre Hl). Qed.


(** C10.  When no line holds "Fe" in its stripped text, every line goes to
    the header, no atom is parsed, and the script ends in [sys.exit] with the
    message of the empty atom set, without writing a file. *)
Theorem no_marker_aborts (lines : list string) (g : G) (files : gmap string string) :
  Forall (λ l, Py.contains "Fe" (Py.strip l) = false) lines →
  header_part (split_header lines) = lines
  ∧ atom_part (split_header lines) = []
  ∧ parse_atoms py_float (atom_part (split_header lines)) = []
  ∧ python_part py_float lines g files
    = (SystemExit "[ERROR] No atoms parsed. Exiting.", files).
Proof.
  intros Hno.
  assert (split_header lines = mkSplit false lines []) as Hs
    by by apply split_header_no_marker.
  rewrite (python_part_exit py_float lines g files); by rewrite Hs.
Qed.

End Claims.


(* ===================================================================== *)
(** ** Further properties of the stages *)
(* ===================================================================== *)

Section StageProperties.

Variable py_float : string -> option float.
Context {G : Type} `{!PyRandom G, !PyRandomLaw G}.

(** *** The header split and the parser *)

Lemma contains_cons sub c r :
  Py.contains sub (String c r) = String.prefix sub (String c r) || Py.contains sub r.
Proof. done. Qed.

Lemma contains_Fe_lstrip s : Py.contains "Fe" (Py.lstrip s) = Py.contains "Fe" s.
Proof.
  induction s as [|c r IH]; [done|]. cbn [Py.lstrip].
  destruct (Py.isspace c) eqn:Hc; [|done].
  rewrite IH, contains_cons. cbn [String.prefix].
  destruct (ascii_dec "F" c) as [<-|?]; done.
Qed.

Lemma prefix_e_rstrip r :
  String.prefix "e" (Py.rstrip r) = String.prefix "e" r.
Proof.
  destruct r as [|d r]; [done|]. cbn [Py.rstrip].
  destruct (Py.is_empty (Py.rstrip r) && Py.isspace d) eqn:Hb.
  - apply andb_true_iff in Hb as [_ Hd]. cbn [String.prefix].
    destruct (ascii_dec "e" d) as [<-|?]; done.
  - cbn [String.prefix]. destruct (ascii_dec "e" d); [|done].
    by destruct (Py.rstrip r), r.
Qed.

Lemma contains_Fe_rstrip s : Py.contains "Fe" (Py.rstrip s) = Py.contains "Fe" s.
Proof.
  induction s as [|c r IH]; [done|]. cbn [Py.rstrip].
  destruct (Py.is_empty (Py.rstrip r) && Py.isspace c) eqn:Hb.
  - apply andb_true_iff in Hb as [He Hc].
    rewrite contains_cons, <- IH.
    destruct (Py.rstrip r); [|done].
    cbn [String.prefix]. destruct (ascii_dec "F" c) as [<-|?]; done.
  - rewrite !contains_cons, IH. f_equal.
    cbn [String.prefix]. destruct (ascii_dec "F" c); [|done].
    apply prefix_e_rstrip.
Qed.

Lemma contains_Fe_app a b : Py.contains "Fe" (a +:+ "Fe" +:+ b) = true.
Proof.
  induction a as [|c a IH].
  - change (EmptyString +:+ "Fe" +:+ b)%string with (String "F" (String "e" b)).
    rewrite contains_cons. cbn [String.prefix].
    destruct (ascii_dec "F" "F"); [|done]. destruct (ascii_dec "e" "e"); [|done].
    by destruct b.
  - rewrite append_cons, contains_cons, IH. apply orb_true_r.
Qed.

(** The marker test looks for the two letters anywhere in the line: the
    [strip] of line 79 changes nothing, and a line that holds "Fe" inside
    any text, a word included, is a marker line. *)
Theorem marker_is_substring :
  (∀ line, has_marker line = Py.contains "Fe" line)
  ∧ (∀ a b, has_marker (a +:+ "Fe" +:+ b) = true).
Proof.
  assert (∀ line, has_marker line = Py.contains "Fe" line) as H.
  { intros line. unfold has_marker, Py.strip.
    by rewrite contains_Fe_rstrip, contains_Fe_lstrip. }
  split; [exact H|]. intros a b. rewrite H. apply contains_Fe_app.
Qed.

Lemma split_from_all_space s : all_space s = true → Py.split_from EmptyString s = [].
Proof.
  induction s as [|c r IH]; [done|]. cbn [all_space Py.split_from].
  intros [Hc Hr]%andb_true_iff. rewrite Hc. cbn. by apply IH.
Qed.

Lemma split_from_space_prefix pre s :
  all_space pre = true →
  Py.split_from EmptyString (pre +:+ s) = Py.split_from EmptyString s.
Proof.
  induction pre as [|c r IH]; [done|]. cbn [all_space].
  intros [Hc Hr]%andb_true_iff. rewrite append_cons. cbn [Py.split_from].
  rewrite Hc. cbn. by apply IH.
Qed.

Lemma split_from_space_suffix suf s : ∀ cur,
  all_space suf = true →
  Py.split_from cur (s +:+ suf) = Py.split_from cur s.
Proof.
  induction s as [|c s IH]; intros cur Hs.
  - change (EmptyString +:+ suf)%string with suf.
    destruct suf as [|d suf]; [done|]. cbn [all_space] in Hs.
    apply andb_true_iff in Hs as [Hd Hs]. cbn [Py.split_from]. rewrite Hd.
    rewrite (split_from_all_space suf Hs). by destruct (Py.is_empty cur).
  - rewrite append_cons. cbn [Py.split_from].
    destruct (Py.isspace c); [destruct (Py.is_empty cur)|]; by rewrite IH.
Qed.

(** Whitespace around a line, the newline that [readlines] leaves at its
    end included, changes nothing in what the parser reads from it. *)
Theorem parse_line_ignores_margins (pre line suf : string) :
  all_space pre = true → all_space suf = true →
  parse_line py_float (pre +:+ line +:+ suf) = parse_line py_float line.
Proof.
  intros Hpre Hsuf. rewrite !parse_line_spec. unfold spec_record, Py.split.
  by rewrite split_from_space_prefix, split_from_space_suffix.
Qed.

(** Each line is parsed on its own: the atoms of two runs of lines are the
    atoms of the first followed by the atoms of the second, a line gives at
    most one atom, and every atom leaves the parser with species 0. *)
Theorem parse_atoms_line_by_line :
  (∀ body1 body2,
     parse_atoms py_float (body1 ++ body2)
     = parse_atoms py_float body1 ++ parse_atoms py_float body2)
  ∧ (∀ body, length (parse_atoms py_float body) ≤ length body)
  ∧ (∀ body a, a ∈ parse_atoms py_float body → atom_type a = 0).
Proof.
  split; [|split].
  - intros body1 body2. by rewrite !parse_atoms_omap, omap_app.
  - intros body. rewrite parse_atoms_omap.
    induction body as [|l body IH]; [done|]. cbn [omap list_omap].
    destruct (spec_record py_float l); simpl; lia.
  - intros body a. rewrite parse_atoms_omap. intros Ha.
    apply list_elem_of_omap in Ha as (l & _ & Hl).
    unfold spec_record in Hl.
    destruct (Py.split l) as [|f0 [|f1 [|f2 [|f3 fs]]]]; try done.
    destruct (py_float f0); [|done]. destruct (py_float f1); [|done].
    destruct (py_float f2); [|done]. by injection Hl as <-.
Qed.

(** The lines of the header are not read again: two files that differ in
    the lines before the first marker line, and in that line, and agree
    after it, give the same run. *)
Theorem header_never_reaches_output (pre pre' post : list string) (l l' : string)
    (g : G) (files : gmap string string) :
  Forall (λ h, has_marker h = false) pre →
  Forall (λ h, has_marker h = false) pre' →
  has_marker l = true → has_marker l' = true →
  python_part py_float (pre ++ l :: post) g files
  = python_part py_float (pre' ++ l' :: post) g files.
Proof.
  intros Hpre Hpre' Hl Hl'. unfold python_part.
  by rewrite (split_header_marker pre l post Hpre Hl),
             (split_header_marker pre' l' post Hpre' Hl').
Qed.

Lemma first_marker (lines : list string) :
  Forall (λ h, has_marker h = false) lines
  ∨ ∃ pre l post, lines = pre ++ l :: post
                  ∧ Forall (λ h, has_marker h = false) pre ∧ has_marker l = true.
Proof.
  induction lines as [|x lines IH]; [by left|].
  destruct (has_marker x) eqn:Hx.
  - right. by exists [], x, lines.
  - destruct IH as [Hall | (pre & l & post & -> & Hpre & Hl)].
    + left. by constructor.
    + right. exists (x :: pre), l, post. split; [done|]. split; [|done].
      by constructor.
Qed.

Lemma omap_nonempty {A B} (f : A → option B) (l : list A) :
  omap f l ≠ [] ↔ Exists (λ x, is_Some (f x)) l.
Proof.
  induction l as [|x l IH]; cbn [omap list_omap].
  - split; [done | by intros ?%Exists_nil].
  - rewrite Exists_cons. destruct (f x) eqn:Hx.
    + split; [intros _; left; by eexists | done].
    + rewrite IH. split; [by right | intros [[? ?]|?]; done].
Qed.

Lemma python_part_outcome (lines : list string) (g : G) (files : gmap string string) :
  ((python_part py_float lines g files).1 = Completed
   ↔ ∃ pre l post, lines = pre ++ l :: post
                   ∧ Forall (λ h, has_marker h = false) pre
                   ∧ has_marker l = true
                   ∧ Exists (well_formed py_float) post)
  ∧ ((python_part py_float lines g files).1 = Completed
     ∨ (python_part py_float lines g files).1
       = SystemExit "[ERROR] No atoms parsed. Exiting.").
Proof.
  assert (∀ post, parse_atoms py_float post ≠ [] ↔ Exists (well_formed py_float) post)
    as Hex by (intros post; rewrite parse_atoms_omap; apply omap_nonempty).
  assert (∀ ls, parse_atoms py_float (atom_part (split_header ls)) ≠ [] →
                (python_part py_float ls g files).1 = Completed) as Hok.
  { intros ls Hne.
    destruct (python_part_completed py_float ls g files Hne) as (? & _ & _ & ->). done. }
  assert (∀ ls, parse_atoms py_float (atom_part (split_header ls)) = [] →
                (python_part py_float ls g files).1
                = SystemExit "[ERROR] No atoms parsed. Exiting.") as Hexit.
  { intros ls He. by rewrite (python_part_exit py_float ls g files He). }
  split.
  - split.
    + intros Hc. destruct (first_marker lines) as [Hall | (pre & l & post & -> & Hpre & Hl)].
      * rewrite Hexit in Hc; [done|]. by rewrite (split_header_no_marker lines Hall).
      * exists pre, l, post. repeat (split; [done|]). apply Hex. intros He.
        rewrite Hexit in Hc; [done|].
        by rewrite (split_header_marker pre l post Hpre Hl).
    + intros (pre & l & post & -> & Hpre & Hl & Hwf). apply Hok.
      rewrite (split_header_marker pre l post Hpre Hl). by apply Hex.
  - destruct (decide (parse_atoms py_float (atom_part (split_header lines)) = [])) as [He|Hne].
    + right. by apply Hexit.
    + left. by apply Hok.
Qed.

(** The run completes exactly when a well-formed line follows the first
    marker line; in every other case it ends in [sys.exit]. *)
Theorem run_completes_iff (lines : list string) (g : G) (files : gmap string string) :
  ((python_part py_float lines g files).1 = Completed
   ↔ ∃ pre l post, lines = pre ++ l :: post
                   ∧ Forall (λ h, has_marker h = false) pre
                   ∧ has_marker l = true
                   ∧ Exists (well_formed py_float) post)
  ∧ ((python_part py_float lines g files).1 = Completed
     ∨ (python_part py_float lines g files).1
       = SystemExit "[ERROR] No atoms parsed. Exiting.").
Proof. apply python_part_outcome. Qed.

Lemma python_part_writes_on_completion (lines : list string) (g : G)
    (files : gmap string string) :
  (python_part py_float lines g files).1 ≠ Completed →
  (python_part py_float lines g files).2 = files.
Proof.
  destruct (decide (parse_atoms py_float (atom_part (split_header lines)) = [])) as [He|Hne].
  - by rewrite (python_part_exit py_float lines g files He).
  - destruct (python_part_completed py_float lines g files Hne) as (? & _ & _ & ->).
    done.
Qed.

(** A run never ends in an exception of [max] or [min], and whatever its
    end it leaves every file but the data file as it was. *)
Theorem python_part_touches_one_file (lines : list string) (g : G)
    (files : gmap string string) :
  (∀ exn, (python_part py_float lines g files).1 ≠ Raised exn)
  ∧ (∀ name, name ≠ output_file →
       (python_part py_float lines g files).2 !! name = files !! name).
Proof.
  destruct (decide (parse_atoms py_float (atom_part (split_header lines)) = [])) as [He|Hne].
  - rewrite (python_part_exit py_float lines g files He). by split.
  - destruct (python_part_completed py_float lines g files Hne) as (? & _ & _ & ->).
    split; [done|]. intros name Hname. cbn [snd]. by rewrite lookup_insert_ne.
Qed.

(** *** The species assigner *)

(** The species counts for every size: species 1 to 4 get the length of
    their slice, cut at the end of the permutation, and species 5 what is
    left after four groups. *)
Theorem species_counts_every_size (atoms : list Atom) (g : G) :
  let n := length atoms in
  let q := quota n in
  let final := species_assigner atoms g in
  (∀ t, 1 ≤ t ≤ 4 → species_count t final = Nat.min q (n - (t - 1) * q))
  ∧ species_count 5 final = n - 4 * q.
Proof.
  intros n q final.
  pose proof (fe_indices_perm n g) as Hperm.
  unfold final, species_assigner. fold n. split.
  - intros t Ht. rewrite (species_count_indices _ atoms Hperm) by lia. fold n.
    by rewrite species_indices_length, (perm_length _ _ Hperm).
  - rewrite (species_count_indices _ atoms Hperm) by lia. fold n.
    by rewrite species_indices_length_5, (perm_length _ _ Hperm).
Qed.

(** With one or two atoms the group size is 0: every atom gets species
    5. *)
Theorem tiny_sets_get_species_5 (atoms : list Atom) (g : G) :
  length atoms ≤ 2 →
  ∀ i a, atoms !! i = Some a → species_assigner atoms g !! i = Some (set_type 5 a).
Proof.
  intros Hlen i a Ha.
  assert (quota (length atoms) = 0) as Hq.
  { destruct (length atoms) as [|[|[|n]]]; [reflexivity..|lia]. }
  pose proof (fe_indices_perm (length atoms) g) as Hperm.
  assert (i ∈ fe_indices_of (length atoms) g) as Hin.
  { apply (perm_elem _ _ Hperm). by eapply lookup_lt_Some. }
  apply list_elem_of_lookup in Hin as [p Hp]. unfold species_assigner.
  rewrite (assign_species_position _ _ p i (perm_NoDup _ _ Hperm) Hp), Ha, Hq.
  done.
Qed.

(** The assigner does not look at the atoms: the species an index receives
    depends on the size of the set and on the permutation, not on the
    coordinates, the grains or the species the atoms come with. *)
Theorem species_ignore_attributes (atoms1 atoms2 : list Atom) (g : G) :
  length atoms1 = length atoms2 →
  ∀ i, type_at (species_assigner atoms1 g) i = type_at (species_assigner atoms2 g) i.
Proof.
  intros Hlen i. unfold type_at.
  destruct (decide (i < length atoms1)) as [Hlt|Hge].
  - pose proof (fe_indices_perm (length atoms1) g) as Hperm.
    assert (i ∈ fe_indices_of (length atoms1) g) as Hin by by apply (perm_elem _ _ Hperm).
    apply list_elem_of_lookup in Hin as [p Hp].
    destruct (lookup_lt_is_Some_2 atoms1 i Hlt) as [a1 Ha1].
    destruct (lookup_lt_is_Some_2 atoms2 i ltac:(lia)) as [a2 Ha2].
    unfold species_assigner.
    rewrite (assign_species_position _ atoms1 p i (perm_NoDup _ _ Hperm) Hp), Ha1.
    rewrite <- Hlen.
    rewrite (assign_species_position _ atoms2 p i).
    + rewrite Ha2, Hlen. done.
    + by apply (perm_NoDup _ atoms1).
    + done.
  - rewrite !(lookup_ge_None_2 (species_assigner _ g)); [done|..];
      rewrite species_assigner_length; lia.
Qed.

(** *** The writer *)

Lemma write_atoms_ext (l1 : list Atom) : ∀ l2 i,
  written_part <$> l1 = written_part <$> l2 → write_atoms i l1 = write_atoms i l2.
Proof.
  induction l1 as [|a l1 IH]; intros [|b l2] i H; try done.
  rewrite !fmap_cons in H. unfold written_part at 1 3 in H.
  injection H as Ht Hx Hy Hz Hl.
  cbn [write_atoms]. rewrite (IH l2 (S i) Hl). f_equal.
  unfold atom_line. by rewrite Ht, Hx, Hy, Hz.
Qed.

Lemma writer_ext (l1 l2 : list Atom) :
  written_part <$> l1 = written_part <$> l2 → writer l1 = writer l2.
Proof.
  intros H. unfold writer.
  assert (length l1 = length l2) as ->
    by (rewrite <- (length_fmap written_part l1), H; apply length_fmap).
  by rewrite (write_atoms_ext l1 l2 1 H).
Qed.

Lemma written_part_assigner (n1 n2 : list Atom) (g : G) :
  position_of <$> n1 = position_of <$> n2 →
  written_part <$> species_assigner n1 g = written_part <$> species_assigner n2 g.
Proof.
  intros H.
  assert (length n1 = length n2) as Hlen
    by (rewrite <- (length_fmap position_of n1), H; apply length_fmap).
  apply list_eq. intros i. rewrite !list_lookup_fmap.
  destruct (decide (i < length n1)) as [Hlt|Hge].
  - pose proof (fe_indices_perm (length n1) g) as Hperm.
    assert (i ∈ fe_indices_of (length n1) g) as Hin by by apply (perm_elem _ _ Hperm).
    apply list_elem_of_lookup in Hin as [p Hp].
    destruct (lookup_lt_is_Some_2 n1 i Hlt) as [a1 Ha1].
    destruct (lookup_lt_is_Some_2 n2 i ltac:(lia)) as [a2 Ha2].
    pose proof (f_equal (.!! i) H) as Hi. cbn beta in Hi.
    rewrite !list_lookup_fmap, Ha1, Ha2 in Hi. injection Hi as Hx Hy Hz.
    unfold species_assigner.
    rewrite (assign_species_position _ n1 p i (perm_NoDup _ _ Hperm) Hp), Ha1.
    rewrite <- Hlen.
    rewrite (assign_species_position _ n2 p i (perm_NoDup _ n1 Hperm) Hp), Ha2.
    rewrite Hlen. cbn. unfold written_part. cbn. by rewrite Hx, Hy, Hz.
  - rewrite !(lookup_ge_None_2 (species_assigner _ g)); [done|..];
      rewrite species_assigner_length; lia.
Qed.

Lemma position_of_coordinates (l : list Atom) :
  atom_x <$> l = (λ p, p.1.1) <$> (position_of <$> l)
  ∧ atom_y <$> l = (λ p, p.1.2) <$> (position_of <$> l)
  ∧ atom_z <$> l = (λ p, p.2) <$> (position_of <$> l).
Proof. by rewrite <- !list_fmap_compose. Qed.

Lemma position_of_scaled (l : list Atom) :
  position_of <$> (scale_atom <$> l)
  = (λ p, (PrimFloat.mul p.1.1 scale_factor, PrimFloat.mul p.1.2 scale_factor,
           PrimFloat.mul p.2 scale_factor)) <$> (position_of <$> l).
Proof. by rewrite <- !list_fmap_compose. Qed.

(** The grain identifiers are carried and never written: two atom sets
    with the same coordinates, whatever their grains and the species they
    come with, give the same data file. *)
Theorem grain_never_written (atoms1 atoms2 : list Atom) (g : G) :
  position_of <$> atoms1 = position_of <$> atoms2 →
  writer <$> transform atoms1 g = writer <$> transform atoms2 g.
Proof.
  intros H. unfold transform, normalizer.
  destruct (position_of_coordinates atoms1) as (-> & -> & ->).
  destruct (position_of_coordinates atoms2) as (-> & -> & ->).
  rewrite H.
  destruct (axis_range ((λ p, p.1.1) <$> (position_of <$> atoms2))) as [xr|]; [|done].
  destruct (axis_range ((λ p, p.1.2) <$> (position_of <$> atoms2))) as [yr|]; [|done].
  destruct (axis_range ((λ p, p.2) <$> (position_of <$> atoms2))) as [zr|]; [|done].
  cbn. f_equal. apply writer_ext, written_part_assigner.
  destruct (is_fractional xr yr zr); [|done].
  by rewrite !position_of_scaled, H.
Qed.

(** *** The script from its first line *)

Section ScriptProperties.

Variable os_system : string -> gmap string string -> Z * gmap string string.

(** The first command that returns a status other than 0 ends the run in
    [sys.exit] with the message that names its step: no later command is
    given to the shell, [poly.cfg] is not read, and the files are left as
    that command left them. *)
Theorem atomsk_failure_aborts (files : gmap string string) (g : G) :
  let r1 := after_create os_system files in
  let r2 := after_duplicate os_system files in
  let r3 := after_poly os_system files in
  (r1.1 ≠ 0%Z →
   script py_float os_system files g
   = mkRun (SystemExit "[ERROR] Atomsk command failed at step 1") r1.2
           [cmd_create])
  ∧ (r1.1 = 0%Z → r2.1 ≠ 0%Z →
     script py_float os_system files g
     = mkRun (SystemExit "[ERROR] Atomsk command failed at step 2") r2.2
             [cmd_create; cmd_duplicate])
  ∧ (r1.1 = 0%Z → r2.1 = 0%Z → r3.1 ≠ 0%Z →
     script py_float os_system files g
     = mkRun (SystemExit "[ERROR] Atomsk command failed at step 3") r3.2
             [cmd_create; cmd_duplicate; cmd_poly]).
Proof.
  unfold script, after_poly, after_duplicate, after_create.
  destruct (os_system cmd_create files) as [s1 f1]. cbn [fst snd].
  destruct (os_system cmd_duplicate f1) as [s2 f2]. cbn [fst snd].
  destruct (os_system cmd_poly f2) as [s3 f3]. cbn [fst snd].
  split; [|split].
  - intros H1. by destruct (Z.eqb_spec s1 0).
  - intros -> H2. cbn. by destruct (Z.eqb_spec s2 0).
  - intros -> -> H3. cbn. by destruct (Z.eqb_spec s3 0).
Qed.

(** The script completes exactly when the three commands return 0, the
    third has left a [poly.cfg], and among its lines a well-formed line
    follows the first marker line.  When the commands return 0 and there is
    no [poly.cfg] the run ends in the exception of [open].  A run that does
    not complete leaves the files as one of the three commands left them:
    the script has written nothing. *)
Theorem script_completes_iff (files : gmap string string) (g : G) :
  let r1 := after_create os_system files in
  let r2 := after_duplicate os_system files in
  let r3 := after_poly os_system files in
  let r := script py_float os_system files g in
  (ended r = Completed
   ↔ r1.1 = 0%Z ∧ r2.1 = 0%Z ∧ r3.1 = 0%Z
     ∧ ∃ content pre l post,
         r3.2 !! input_file = Some content
         ∧ PyIO.readlines content = pre ++ l :: post
         ∧ Forall (λ h, has_marker h = false) pre
         ∧ has_marker l = true
         ∧ Exists (well_formed py_float) post)
  ∧ (r1.1 = 0%Z → r2.1 = 0%Z → r3.1 = 0%Z → r3.2 !! input_file = None →
     r = mkRun (Raised "FileNotFoundError") r3.2 [cmd_create; cmd_duplicate; cmd_poly])
  ∧ (ended r ≠ Completed →
     files_left r = r1.2 ∨ files_left r = r2.2 ∨ files_left r = r3.2)
  ∧ commands_run r `prefix_of` [cmd_create; cmd_duplicate; cmd_poly].
Proof.
  unfold script, after_poly, after_duplicate, after_create.
  destruct (os_system cmd_create files) as [s1 f1]. cbn [fst snd].
  destruct (os_system cmd_duplicate f1) as [s2 f2]. cbn [fst snd].
  destruct (os_system cmd_poly f2) as [s3 f3]. cbn [fst snd].
  destruct (Z.eqb_spec s1 0) as [->|N1]; cbn [negb];
    [|split; [split; [done | by intros (? & _)]
             | split; [done | split; [auto | by exists [cmd_duplicate; cmd_poly] ]]]].
  destruct (Z.eqb_spec s2 0) as [->|N2]; cbn [negb];
    [|split; [split; [done | by intros (_ & ? & _)]
             | split; [done | split; [auto | by exists [cmd_poly] ]]]].
  destruct (Z.eqb_spec s3 0) as [->|N3]; cbn [negb];
    [|split; [split; [done | by intros (_ & _ & ? & _)]
             | split; [done | split; [auto | by exists [] ]]]].
  destruct (f3 !! input_file) as [content|] eqn:Ein.
  - pose proof (python_part_outcome (PyIO.readlines content) g f3) as [Hiff _].
    pose proof (python_part_writes_on_completion (PyIO.readlines content) g f3) as Hw.
    destruct (python_part py_float (PyIO.readlines content) g f3) as [o f'].
    cbn [fst snd ended files_left commands_run] in *.
    split; [|split; [done | split; [|by exists [] ]]].
    + rewrite Hiff. split.
      * intros (pre & l & post & H). repeat (split; [done|]).
        by exists content, pre, l, post.
      * intros (_ & _ & _ & content' & pre & l & post & [= <-] & H).
        by exists pre, l, post.
    + intros Ho. right; right. by apply Hw.
  - cbn [ended files_left commands_run].
    split; [|split; [done | split; [auto | by exists [] ]]].
    split; [done|]. by intros (_ & _ & _ & ? & ? & ? & ? & ? & _).
Qed.

End ScriptProperties.

End StageProperties.

(* ===================================================================== *)
(** ** The claims on concrete inputs *)
(* ===================================================================== *)

Section Instances.

Import Examples.

Lemma sample_cfg_parses :
  parse_atoms Runtime.decimal_float (atom_part (split_header sample_cfg)) = sample_atoms.
Proof. vm_compute. reflexivity. Qed.

(** The run on the sample: the permutation drawn, and the end of the file
    written. *)
Example sample_run :
  fe_indices_of (G := N) 5 42%N = [0; 1; 4; 3; 2]
  ∧ (python_part (G := N) Runtime.decimal_float sample_cfg 42%N ∅).1 = Completed
  ∧ drop 17 <$> (file_lines
       <$> (python_part (G := N) Runtime.decimal_float sample_cfg 42%N ∅).2 !! output_file)
    = Some [ "Atoms"; "";
             "1 1 49.500000 99.000000 148.500000";
             "2 2 0.000000 0.000000 0.000000";
             "3 5 198.000000 24.750000 99.000000";
             "4 4 99.000000 99.000000 99.000000";
             "5 3 148.500000 49.500000 198.000000" ]%string.
Proof. vm_compute. repeat split; reflexivity. Qed.

(** For sizes up to 2000 the group size is [(n + 2) / 5], and 3 is the only
    size whose four groups do not fit. *)
Lemma quota_table :
  forallb (λ n, (quota n =? (n + 2) / 5)%nat
                && ((4 * quota n <=? n)%nat || (n =? 3)%nat)) (seq 0 2001) = true.
Proof. vm_compute. reflexivity. Qed.

(** C1 as stated fails on three atoms: the group size is 1, the permutation
    has three positions, and species 4 gets no atom. *)
Lemma quota_fails_on_three_atoms :
  length three_atoms = 3
  ∧ quota 3 = 1
  ∧ fe_indices_of (G := N) 3 7%N = [2; 0; 1]
  ∧ atom_type <$> species_assigner three_atoms 7%N = [2; 3; 1]
  ∧ species_count 4 (species_assigner three_atoms 7%N) = 0.
Proof. vm_compute. repeat split; reflexivity. Qed.

(** C1 on the five atoms of the sample: one atom for each species. *)
Lemma species_groups_by_quota_witness :
  0 < length sample_atoms
  ∧ 4 * quota (length sample_atoms) ≤ length sample_atoms
  ∧ species_count 1 (species_assigner sample_atoms 42%N) = quota 5
  ∧ species_count 4 (species_assigner sample_atoms 42%N) = quota 5
  ∧ species_count 5 (species_assigner sample_atoms 42%N) = 1.
Proof.
  assert (0 < length sample_atoms) as Hn by (simpl; lia).
  assert (4 * quota (length sample_atoms) ≤ length sample_atoms) as Hq
    by (vm_compute; lia).
  destruct (species_groups_by_quota sample_atoms 42%N Hn) as [_ Hcount].
  destruct (Hcount Hq) as [H14 H5].
  split; [exact Hn|]. split; [exact Hq|].
  split; [apply H14; lia|]. split; [apply H14; lia|]. exact H5.
Defined.

(** C2 on the five atoms of the sample. *)
Lemma species_assignment_total_witness :
  0 < length sample_atoms
  ∧ length (species_assigner sample_atoms 42%N) = 5
  ∧ species_count 1 (species_assigner sample_atoms 42%N)
    + species_count 2 (species_assigner sample_atoms 42%N)
    + species_count 3 (species_assigner sample_atoms 42%N)
    + species_count 4 (species_assigner sample_atoms 42%N)
    + species_count 5 (species_assigner sample_atoms 42%N) = 5.
Proof.
  assert (0 < length sample_atoms) as Hn by (simpl; lia).
  destruct (species_assignment_total sample_atoms 42%N Hn) as (Hlen & _ & _ & _ & Hsum).
  split; [exact Hn|]. split; [exact Hlen | exact Hsum].
Defined.

(** C3 on both sides: the sample, whose ranges are 1, 0.5 and 1, comes out
    multiplied by 198, and the atoms whose x range is exactly 2.0 come out
    as they are. *)
Lemma normalizer_threshold_witness :
  (axis_range (atom_x <$> sample_atoms) = Some 1%float
   ∧ axis_range (atom_y <$> sample_atoms) = Some 0.5%float
   ∧ axis_range (atom_z <$> sample_atoms) = Some 1%float
   ∧ normalizer sample_atoms
     = Some [ mkAtom 49.5 99 148.5 "1" 0; mkAtom 0 0 0 "2" 0;
              mkAtom 198 24.75 99 "3" 0; mkAtom 99 99 99 "7" 0;
              mkAtom 148.5 49.5 198 "7" 0 ])
  ∧ (axis_range (atom_x <$> boundary_atoms) = Some 2%float
     ∧ axis_range (atom_y <$> boundary_atoms) = Some 0%float
     ∧ axis_range (atom_z <$> boundary_atoms) = Some 0%float
     ∧ normalizer boundary_atoms = Some boundary_atoms).
Proof.
  assert (axis_range (atom_x <$> sample_atoms) = Some 1%float) as Sx by reflexivity.
  assert (axis_range (atom_y <$> sample_atoms) = Some 0.5%float) as Sy by reflexivity.
  assert (axis_range (atom_z <$> sample_atoms) = Some 1%float) as Sz by reflexivity.
  assert (axis_range (atom_x <$> boundary_atoms) = Some 2%float) as Hx by reflexivity.
  assert (axis_range (atom_y <$> boundary_atoms) = Some 0%float) as Hy by reflexivity.
  assert (axis_range (atom_z <$> boundary_atoms) = Some 0%float) as Hz by reflexivity.
  destruct (normalizer_threshold sample_atoms _ _ _ Sx Sy Sz) as (Hscaled & _ & _).
  destruct (normalizer_threshold boundary_atoms _ _ _ Hx Hy Hz) as (_ & _ & Heq).
  split.
  - split; [exact Sx|]. split; [exact Sy|]. split; [exact Sz|].
    rewrite Hscaled by (repeat split; reflexivity). reflexivity.
  - split; [exact Hx|]. split; [exact Hy|]. split; [exact Hz|].
    apply Heq. by left.
Defined.

(** C4 on the sample, whose ranges are 1, 0.5 and 1: the third atom
    (1, 0.125, 0.5) comes out as (198, 24.75, 99). *)
Lemma scaling_applied_once_witness :
  axis_range (atom_x <$> sample_atoms) = Some 1%float
  ∧ axis_range (atom_y <$> sample_atoms) = Some 0.5%float
  ∧ axis_range (atom_z <$> sample_atoms) = Some 1%float
  ∧ PrimFloat.ltb 1 2 = true ∧ PrimFloat.ltb 0.5 2 = true
  ∧ ∃ final, transform sample_atoms 42%N = Some final
             ∧ length final = 5
             ∧ ∃ t, final !! 2 = Some (mkAtom 198 24.75 99 "3" t).
Proof.
  assert (axis_range (atom_x <$> sample_atoms) = Some 1%float) as Hx by reflexivity.
  assert (axis_range (atom_y <$> sample_atoms) = Some 0.5%float) as Hy by reflexivity.
  assert (axis_range (atom_z <$> sample_atoms) = Some 1%float) as Hz by reflexivity.
  destruct (scaling_applied_once sample_atoms 42%N _ _ _ Hx Hy Hz
              eq_refl eq_refl eq_refl) as (final & Ht & Hlen & Hat).
  destruct (Hat 2 (mkAtom 1 0.125 0.5 "3" 0) eq_refl) as (t & Hf & _).
  repeat (split; [reflexivity|]).
  exists final. split; [exact Ht|]. split; [exact Hlen|]. exists t. exact Hf.
Defined.

(** C5 as stated fails on a file whose atom line reads "inf 0 0 1": the
    line parses, the run completes, and the x coordinate is written as inf,
    which is no fixed-point decimal. *)
Lemma infinite_coordinate_written_as_inf :
  parse_atoms Runtime.decimal_float (atom_part (split_header infinite_cfg))
  = [ mkAtom infinity 0 0 "1" 0 ]
  ∧ (python_part (G := N) Runtime.decimal_float infinite_cfg 42%N ∅).1 = Completed
  ∧ drop 19 <$> (file_lines
       <$> (python_part (G := N) Runtime.decimal_float infinite_cfg 42%N ∅).2
           !! output_file)
    = Some [ "1 5 inf 0.000000 0.000000"%string ]
  ∧ Py.format_6f infinity = "inf"%string
  ∧ is_fixed_point_6 "inf" = false.
Proof. vm_compute. repeat split; reflexivity. Qed.

(** C5 on the sample file. *)
Lemma output_atom_section_witness :
  0 < length (parse_atoms Runtime.decimal_float (atom_part (split_header sample_cfg)))
  ∧ ∃ (final : list Atom) (content : string),
      python_part (G := N) Runtime.decimal_float sample_cfg 42%N ∅ = (Completed, <[output_file := content]> ∅)
      ∧ length final = 5
      ∧ file_lines content !! 2 = Some "5 atoms"
      ∧ length (drop 19 (file_lines content)) = 5
      ∧ is_fixed_point_6 (Py.format_6f 24.75) = true.
Proof.
  assert (0 < length (parse_atoms Runtime.decimal_float
                        (atom_part (split_header sample_cfg)))) as Hn
    by (rewrite sample_cfg_parses; simpl; lia).
  destruct (output_atom_section Runtime.decimal_float sample_cfg 42%N ∅ Hn)
    as (final & content & Hrun & _ & Hlen & H3 & _ & Hsec & _).
  rewrite sample_cfg_parses in Hlen, H3, Hsec.
  split; [exact Hn|]. exists final, content.
  split; [exact Hrun|]. split; [exact Hlen|]. split; [exact H3|].
  split; [exact Hsec | reflexivity].
Defined.

(** C6: a line of two fields between two well-formed lines. *)
Lemma parser_skips_malformed_witness :
  parse_atoms Runtime.decimal_float ["0 0 0 1"; "0.5 0.5"; "1 1 1 2"]
  = parse_atoms Runtime.decimal_float ["0 0 0 1"; "1 1 1 2"].
Proof.
  destruct (parser_skips_malformed Runtime.decimal_float) as (_ & Hskip & _).
  apply (Hskip ["0 0 0 1"] "0.5 0.5" ["1 1 1 2"]).
  left. vm_compute. lia.
Defined.

(** C7 on a file whose body holds a short line and a line of words. *)
Lemma empty_atom_set_aborts_witness :
  parse_atoms Runtime.decimal_float (atom_part (split_header empty_body_cfg)) = []
  ∧ python_part (G := N) Runtime.decimal_float empty_body_cfg 42%N ∅ = (SystemExit "[ERROR] No atoms parsed. Exiting.", ∅).
Proof.
  assert (parse_atoms Runtime.decimal_float
            (atom_part (split_header empty_body_cfg)) = []) as He by reflexivity.
  split; [exact He|].
  apply (empty_atom_set_aborts Runtime.decimal_float empty_body_cfg 42%N ∅ He).
Defined.

(** C8: a second line holding the marker stays in the atom part. *)
Lemma header_split_first_marker_witness :
  has_marker "entry_count = 4" = false
  ∧ has_marker "  Fe " = true
  ∧ atom_part (split_header (["entry_count = 4"] ++ "  Fe " :: ["0 0 0 1"; "Fe"]))
    = ["0 0 0 1"; "Fe"].
Proof.
  assert (Forall (λ h, has_marker h = false) ["entry_count = 4"]) as Hpre
    by (repeat constructor).
  assert (has_marker "  Fe " = true) as Hl by reflexivity.
  split; [reflexivity|]. split; [exact Hl|].
  apply (header_split_first_marker ["entry_count = 4"] ["0 0 0 1"; "Fe"] "  Fe " Hpre Hl).
Defined.



(** C10 on a file of three lines, none with the marker. *)
Lemma no_marker_aborts_witness :
  Forall (λ l, Py.contains "Fe" (Py.strip l) = false) no_marker_cfg
  ∧ header_part (split_header no_marker_cfg) = no_marker_cfg
  ∧ python_part (G := N) Runtime.decimal_float no_marker_cfg 42%N ∅ = (SystemExit "[ERROR] No atoms parsed. Exiting.", ∅).
Proof.
  assert (Forall (λ l, Py.contains "Fe" (Py.strip l) = false) no_marker_cfg) as Hno
    by (repeat constructor).
  destruct (no_marker_aborts Runtime.decimal_float no_marker_cfg 42%N ∅ Hno)
    as (Hh & _ & _ & Hrun).
  split; [exact Hno|]. split; [exact Hh | exact Hrun].
Defined.

(** *** The further properties on concrete inputs *)

(** A line of the sample between two spaces and before a newline. *)
Lemma parse_line_ignores_margins_witness :
  parse_line Runtime.decimal_float ("  " +:+ "1 0.125 0.5 3 extra" +:+ newline)
  = Some (mkAtom 1 0.125 0.5 "3" 0).
Proof.
  rewrite (parse_line_ignores_margins Runtime.decimal_float
             "  " "1 0.125 0.5 3 extra" newline eq_refl eq_refl).
  reflexivity.
Defined.

(** Two headers before the same atom lines. *)
Lemma header_never_reaches_output_witness :
  python_part (G := N) Runtime.decimal_float
    (["title"; "entry_count = 4"] ++ "Fe" :: ["0 0 0 1"; "1 1 1 2"]) 42%N ∅
  = python_part (G := N) Runtime.decimal_float
      ([] ++ "mass of Fe = 55.845" :: ["0 0 0 1"; "1 1 1 2"]) 42%N ∅.
Proof.
  apply (header_never_reaches_output Runtime.decimal_float
           ["title"; "entry_count = 4"] [] ["0 0 0 1"; "1 1 1 2"]
           "Fe" "mass of Fe = 55.845" 42%N ∅).
  - repeat constructor.
  - constructor.
  - reflexivity.
  - reflexivity.
Defined.

(** The counts on three atoms: 1, 1, 1, 0 and 0. *)
Lemma species_counts_every_size_witness :
  species_count 3 (species_assigner three_atoms 7%N) = 1
  ∧ species_count 4 (species_assigner three_atoms 7%N) = 0
  ∧ species_count 5 (species_assigner three_atoms 7%N) = 0.
Proof.
  destruct (species_counts_every_size three_atoms 7%N) as [H14 H5].
  split; [exact (H14 3 ltac:(lia))|]. split; [exact (H14 4 ltac:(lia)) | exact H5].
Defined.

(** Two atoms: both get species 5. *)
Lemma tiny_sets_get_species_5_witness :
  length boundary_atoms ≤ 2
  ∧ species_assigner boundary_atoms 42%N !! 0 = Some (mkAtom 0 0.5 0.5 "1" 5)
  ∧ species_assigner boundary_atoms 42%N !! 1 = Some (mkAtom 2 0.5 0.5 "1" 5).
Proof.
  assert (length boundary_atoms ≤ 2) as Hlen by (simpl; lia).
  split; [exact Hlen|]. split.
  - exact (tiny_sets_get_species_5 boundary_atoms 42%N Hlen 0 _ eq_refl).
  - exact (tiny_sets_get_species_5 boundary_atoms 42%N Hlen 1 _ eq_refl).
Defined.

(** Two sets of three atoms get the same species, index by index. *)
Lemma species_ignore_attributes_witness :
  length three_atoms = length (scale_atom <$> three_atoms)
  ∧ type_at (species_assigner three_atoms 7%N) 1
    = type_at (species_assigner (scale_atom <$> three_atoms) 7%N) 1.
Proof.
  assert (length three_atoms = length (scale_atom <$> three_atoms)) as Hlen
    by reflexivity.
  split; [exact Hlen|].
  exact (species_ignore_attributes three_atoms (scale_atom <$> three_atoms) 7%N Hlen 1).
Defined.

(** The sample with other grains and species gives the same file. *)
Lemma grain_never_written_witness :
  writer <$> transform sample_atoms 42%N
  = writer <$> transform ((λ a, mkAtom (atom_x a) (atom_y a) (atom_z a) "g" 3)
                            <$> sample_atoms) 42%N.
Proof.
  apply (grain_never_written sample_atoms
           ((λ a, mkAtom (atom_x a) (atom_y a) (atom_z a) "g" 3) <$> sample_atoms)
           42%N).
  reflexivity.
Defined.

(** A second command that returns 1: the third is not run. *)
Lemma atomsk_failure_aborts_witness :
  (after_create Runtime.shell_fails_at_duplicate ∅).1 = 0%Z
  ∧ (after_duplicate Runtime.shell_fails_at_duplicate ∅).1 ≠ 0%Z
  ∧ ended (script (G := N) Runtime.decimal_float Runtime.shell_fails_at_duplicate ∅ 42%N)
    = SystemExit "[ERROR] Atomsk command failed at step 2"
  ∧ commands_run
      (script (G := N) Runtime.decimal_float Runtime.shell_fails_at_duplicate ∅ 42%N)
    = [cmd_create; cmd_duplicate].
Proof.
  assert ((after_create Runtime.shell_fails_at_duplicate ∅).1 = 0%Z) as H1
    by reflexivity.
  assert ((after_duplicate Runtime.shell_fails_at_duplicate ∅).1 ≠ 0%Z) as H2
    by (vm_compute; discriminate).
  destruct (atomsk_failure_aborts Runtime.decimal_float
              Runtime.shell_fails_at_duplicate ∅ 42%N) as (_ & Hstep2 & _).
  split; [exact H1|]. split; [exact H2|].
  rewrite (Hstep2 H1 H2). split; reflexivity.
Defined.

(** The three commands return 0 and leave the sample: the script
    completes. *)
Lemma script_completes_iff_witness :
  PyIO.readlines (String.concat "" sample_cfg) = sample_cfg
  ∧ ended (script (G := N) Runtime.decimal_float
             (Runtime.shell_ok (String.concat "" sample_cfg)) ∅ 42%N)
    = Completed.
Proof.
  assert (PyIO.readlines (String.concat "" sample_cfg) = sample_cfg) as Hread
    by (vm_compute; reflexivity).
  split; [exact Hread|].
  destruct (script_completes_iff Runtime.decimal_float
              (Runtime.shell_ok (String.concat "" sample_cfg)) ∅ 42%N)
    as ([_ Hif] & _).
  apply Hif. repeat (split; [reflexivity|]).
  exists (String.concat "" sample_cfg), (take 4 sample_cfg), (line "Fe"),
         (drop 5 sample_cfg).
  split; [vm_compute; reflexivity|]. split; [exact Hread|].
  split; [repeat constructor|]. split; [reflexivity|].
  apply Exists_cons_hd. by eexists.
Defined.

End Instances.
